(** * Snippet repository storage moves: the GitLab client binding

    A shallow embedding of [snippet_repository_storage_move.go].  The six
    methods of [SnippetRepositoryStorageMoveService] are written as programs
    over the two calls they make on the shared client ([NewRequest] and
    [Do]); the client itself is a parameter of the development.  *)

From Stdlib Require Import ZArith List String Ascii Bool Lia.
From Stdlib Require Import DecimalString DecimalPos DecimalZ.
Import ListNotations.

Local Open Scope string_scope.
Local Open Scope Z_scope.

(** ** [fmt.Sprintf] on the verb [%d] *)

(** [%d] on a Go [int]: an optional minus sign and the decimal digits. *)
Definition FormatInt (z : Z) : string :=
  NilZero.string_of_int (Z.to_int z).

(** Reading a decimal rendering back ([strconv.Atoi] on well-formed input). *)
Definition ParseInt (s : string) : option Z :=
  option_map Z.of_int (NilZero.int_of_string s).

(** What [fmt] prints for operands that no verb consumed. *)
Definition extra_args (args : list Z) : string :=
  match args with
  | [] => ""
  | _ => "%!(EXTRA "
         ++ String.concat ", " (map (fun a => "int=" ++ FormatInt a) args)
         ++ ")"
  end.

(** The format strings of this file use no verb beyond [%d]; every operand is
    an [int]. *)
Fixpoint Sprintf (format : string) (args : list Z) : string :=
  match format with
  | EmptyString => extra_args args
  | String "%" (String "d" rest) =>
      match args with
      | a :: args' => FormatInt a ++ Sprintf rest args'
      | [] => "%!d(MISSING)" ++ Sprintf rest []
      end
  | String c rest => String c (Sprintf rest args)
  end.

(** ** Endpoint templates of the wire contract *)

Fixpoint lookup_id (name : string) (env : list (string * Z)) : option Z :=
  match env with
  | [] => None
  | (n, z) :: rest =>
      if String.eqb n name then Some z else lookup_id name rest
  end.

(** Filling a documented path such as
    [snippets/{snippet}/repository_storage_moves]: a placeholder in braces
    stands for the decimal rendering of the identifier of that name.  [name]
    holds the placeholder being read, if any. *)
Fixpoint fill (template : string) (name : option string)
    (env : list (string * Z)) : string :=
  match template with
  | EmptyString =>
      match name with
      | Some n => "{" ++ n
      | None => ""
      end
  | String c rest =>
      match name with
      | None =>
          if Ascii.eqb c "{" then fill rest (Some "") env
          else String c (fill rest None env)
      | Some n =>
          if Ascii.eqb c "}" then
            match lookup_id n env with
            | Some z => FormatInt z
            | None => "{" ++ n ++ "}"
            end ++ fill rest None env
          else fill rest (Some (n ++ String c "")) env
      end
  end.

(** [http.MethodGet] and [http.MethodPost]. *)
Definition MethodGet : string := "GET".
Definition MethodPost : string := "POST".

(** ** Request options of the mutation endpoints *)

Record ScheduleSnippetStorageMoveOptions : Type := {
  opt_SourceStorageName : string;
  opt_DestinationStorageName : string
}.

(** What the decode target handed to [Do] points to:
    - [SliceTarget]: [&ssms] with [ssms []*SnippetRepositoryStorageMove];
    - [RecordTarget]: [ssm], the result of [new(SnippetRepositoryStorageMove)];
    - [RecordPtrTarget]: [&ssm] with [ssm *SnippetRepositoryStorageMove]. *)
Inductive TargetKind : Type :=
| SliceTarget
| RecordTarget
| RecordPtrTarget.

(** A [*Client] is an address in the store of clients. *)
Definition ClientRef : Type := nat.

(** The service holds nothing but the reference to the shared client. *)
Record SnippetRepositoryStorageMoveService : Type := {
  client : ClientRef
}.

Section Model.

(** Types this file uses and does not declare: [time.Time], the pagination
    options [ListOptions], the hooks [RequestOptionFunc], the request and
    response of the client library, and [error]. *)
Variable Time : Type.
Variable ListOptions : Type.
Variable RequestOptionFunc : Type.
Variable Request : Type.
Variable Response : Type.
Variable error : Type.

(** Modelled from the spec: the visibility classification of a snippet; its
    declaration is not part of this file.  It travels as a JSON string. *)
Definition VisibilityValue : Type := string.

Record BasicSnippet : Type := {
  bs_ID : Z;
  bs_Title : string;
  bs_Description : string;
  bs_Visibility : VisibilityValue;
  bs_UpdatedAt : option Time;
  bs_CreatedAt : option Time;
  bs_ProjectID : Z;
  bs_WebURL : string;
  bs_RawURL : string;
  bs_SshUrlToRepo : string;
  bs_HttpUrlToRepo : string
}.

Record SnippetRepositoryStorageMove : Type := {
  ssm_ID : Z;
  ssm_CreatedAt : option Time;
  ssm_State : string;
  ssm_SourceStorageName : string;
  ssm_DestinationStorageName : string;
  ssm_Snippet : BasicSnippet
}.

(** Go's zero values, as [new] and [var] produce them. *)
Definition zero_BasicSnippet : BasicSnippet :=
  {| bs_ID := 0; bs_Title := ""; bs_Description := ""; bs_Visibility := "";
     bs_UpdatedAt := None; bs_CreatedAt := None; bs_ProjectID := 0;
     bs_WebURL := ""; bs_RawURL := ""; bs_SshUrlToRepo := "";
     bs_HttpUrlToRepo := "" |}.

Definition zero_SnippetRepositoryStorageMove : SnippetRepositoryStorageMove :=
  {| ssm_ID := 0; ssm_CreatedAt := None; ssm_State := "";
     ssm_SourceStorageName := ""; ssm_DestinationStorageName := "";
     ssm_Snippet := zero_BasicSnippet |}.

Definition RetrieveAllSnippetStorageMovesOptions : Type := ListOptions.

(** The dynamic types this file passes as the [opt interface{}] argument of
    [NewRequest]. *)
Inductive RequestOpt : Type :=
| OptNil
| OptList (opts : RetrieveAllSnippetStorageMovesOptions)
| OptSchedule (opts : ScheduleSnippetStorageMoveOptions).

(** The value a decode target points to; a nil pointer or nil slice is
    [None]. *)
Definition target_val (k : TargetKind) : Type :=
  match k with
  | SliceTarget => option (list (option SnippetRepositoryStorageMove))
  | RecordTarget => SnippetRepositoryStorageMove
  | RecordPtrTarget => option SnippetRepositoryStorageMove
  end.

(** ** Programs over the client *)

(** The two client methods the service calls.  [Do] writes through its
    second argument, so its answer carries the value the target holds
    afterwards next to [(resp, err)]. *)
Inductive ClientE : Type -> Type :=
| NewRequestE (c : ClientRef) (method path : string) (opt : RequestOpt)
              (options : list RequestOptionFunc)
  : ClientE (option Request * option error)
| DoE (c : ClientRef) (req : option Request) (k : TargetKind)
      (v : target_val k)
  : ClientE (target_val k * (option Response * option error)).

Inductive Prog (A : Type) : Type :=
| Ret (a : A)
| Call (X : Type) (e : ClientE X) (k : X -> Prog A).

Arguments Ret {A} a.
Arguments Call {A X} e k.

Fixpoint bind {A B : Type} (p : Prog A) (f : A -> Prog B) : Prog B :=
  match p with
  | Ret a => f a
  | Call e k => Call e (fun x => bind (k x) f)
  end.

Definition call {X : Type} (e : ClientE X) : Prog X := Call e Ret.

Notation "x <- p ;; q" := (bind p (fun x => q))
  (at level 61, p at next level, right associativity).
Notation "' pat <- p ;; q" := (bind p (fun x => match x with pat => q end))
  (at level 61, pat pattern, p at next level, right associativity).

(** ** The six operations *)

Definition ListResult : Type :=
  option (list (option SnippetRepositoryStorageMove))
  * option Response * option error.

Definition RecordResult : Type :=
  option SnippetRepositoryStorageMove * option Response * option error.

Definition RetrieveAllSnippetStorageMoves
    (s : SnippetRepositoryStorageMoveService)
    (opts : RetrieveAllSnippetStorageMovesOptions)
    (options : list RequestOptionFunc) : Prog ListResult :=
  '(req, err) <- call (NewRequestE (client s) MethodGet
                         "snippet_repository_storage_moves"
                         (OptList opts) options) ;;
  match err with
  | Some _ => Ret (None, None, err)
  | None =>
      '(ssms, (resp, err)) <- call (DoE (client s) req SliceTarget None) ;;
      match err with
      | Some _ => Ret (None, resp, err)
      | None => Ret (ssms, resp, err)
      end
  end.

Definition RetrieveAllStorageMovesForSnippet
    (s : SnippetRepositoryStorageMoveService) (snippet : Z)
    (opts : RetrieveAllSnippetStorageMovesOptions)
    (options : list RequestOptionFunc) : Prog ListResult :=
  let u := Sprintf "snippets/%d/repository_storage_moves" [snippet] in
  '(req, err) <- call (NewRequestE (client s) MethodGet u
                         (OptList opts) options) ;;
  match err with
  | Some _ => Ret (None, None, err)
  | None =>
      '(ssms, (resp, err)) <- call (DoE (client s) req SliceTarget None) ;;
      match err with
      | Some _ => Ret (None, resp, err)
      | None => Ret (ssms, resp, err)
      end
  end.

Definition GetSnippetStorageMove
    (s : SnippetRepositoryStorageMoveService) (repositoryStorage : Z)
    (options : list RequestOptionFunc) : Prog RecordResult :=
  let u := Sprintf "snippet_repository_storage_moves/%d"
             [repositoryStorage] in
  '(req, err) <- call (NewRequestE (client s) MethodGet u OptNil options) ;;
  match err with
  | Some _ => Ret (None, None, err)
  | None =>
      '(ssm, (resp, err)) <- call (DoE (client s) req RecordTarget
                                     zero_SnippetRepositoryStorageMove) ;;
      match err with
      | Some _ => Ret (None, resp, err)
      | None => Ret (Some ssm, resp, err)
      end
  end.

Definition GetStorageMoveForSnippet
    (s : SnippetRepositoryStorageMoveService)
    (snippet repositoryStorage : Z)
    (options : list RequestOptionFunc) : Prog RecordResult :=
  let u := Sprintf "snippets/%d/repository_storage_moves/%d"
             [snippet; repositoryStorage] in
  '(req, err) <- call (NewRequestE (client s) MethodGet u OptNil options) ;;
  match err with
  | Some _ => Ret (None, None, err)
  | None =>
      '(ssm, (resp, err)) <- call (DoE (client s) req RecordTarget
                                     zero_SnippetRepositoryStorageMove) ;;
      match err with
      | Some _ => Ret (None, resp, err)
      | None => Ret (Some ssm, resp, err)
      end
  end.

Definition ScheduleStorageMoveForSnippet
    (s : SnippetRepositoryStorageMoveService) (snippet : Z)
    (opts : ScheduleSnippetStorageMoveOptions)
    (options : list RequestOptionFunc) : Prog RecordResult :=
  let u := Sprintf "snippets/%d/repository_storage_moves" [snippet] in
  '(req, err) <- call (NewRequestE (client s) MethodPost u
                         (OptSchedule opts) options) ;;
  match err with
  | Some _ => Ret (None, None, err)
  | None =>
      '(ssm, (resp, err)) <- call (DoE (client s) req RecordTarget
                                     zero_SnippetRepositoryStorageMove) ;;
      match err with
      | Some _ => Ret (None, resp, err)
      | None => Ret (Some ssm, resp, err)
      end
  end.

Definition ScheduleAllSnippetStorageMoves
    (s : SnippetRepositoryStorageMoveService)
    (opts : ScheduleSnippetStorageMoveOptions)
    (options : list RequestOptionFunc)
  : Prog (option Response * option error) :=
  '(req, err) <- call (NewRequestE (client s) MethodPost
                         "snippet_repository_storage_moves"
                         (OptSchedule opts) options) ;;
  match err with
  | Some _ => Ret (None, err)
  | None =>
      '(ssm, (resp, err)) <- call (DoE (client s) req RecordPtrTarget None) ;;
      match err with
      | Some _ => Ret (resp, err)
      | None => Ret (resp, err)
      end
  end.

(** ** One entry point for the six operations *)

Inductive OpCall : Type :=
| CallRetrieveAllSnippetStorageMoves
    (opts : RetrieveAllSnippetStorageMovesOptions)
    (options : list RequestOptionFunc)
| CallRetrieveAllStorageMovesForSnippet (snippet : Z)
    (opts : RetrieveAllSnippetStorageMovesOptions)
    (options : list RequestOptionFunc)
| CallGetSnippetStorageMove (repositoryStorage : Z)
    (options : list RequestOptionFunc)
| CallGetStorageMoveForSnippet (snippet repositoryStorage : Z)
    (options : list RequestOptionFunc)
| CallScheduleStorageMoveForSnippet (snippet : Z)
    (opts : ScheduleSnippetStorageMoveOptions)
    (options : list RequestOptionFunc)
| CallScheduleAllSnippetStorageMoves
    (opts : ScheduleSnippetStorageMoveOptions)
    (options : list RequestOptionFunc).

(** The endpoint of each operation as the wire contract lists it. *)
Definition documented_endpoint (o : OpCall) : string * string :=
  match o with
  | CallRetrieveAllSnippetStorageMoves _ _ =>
      ("GET", "snippet_repository_storage_moves")
  | CallRetrieveAllStorageMovesForSnippet snippet _ _ =>
      ("GET", fill "snippets/{snippet}/repository_storage_moves" None
                [("snippet", snippet)])
  | CallGetSnippetStorageMove id _ =>
      ("GET", fill "snippet_repository_storage_moves/{id}" None [("id", id)])
  | CallGetStorageMoveForSnippet snippet id _ =>
      ("GET", fill "snippets/{snippet}/repository_storage_moves/{id}" None
                [("snippet", snippet); ("id", id)])
  | CallScheduleStorageMoveForSnippet snippet _ _ =>
      ("POST", fill "snippets/{snippet}/repository_storage_moves" None
                 [("snippet", snippet)])
  | CallScheduleAllSnippetStorageMoves _ _ =>
      ("POST", "snippet_repository_storage_moves")
  end.

(** What a call hands back, by result type. *)
Inductive OpResult : Type :=
| ResList (r : ListResult)
| ResRecord (r : RecordResult)
| ResMeta (r : option Response * option error).

Definition invoke (s : SnippetRepositoryStorageMoveService) (o : OpCall)
  : Prog OpResult :=
  match o with
  | CallRetrieveAllSnippetStorageMoves opts options =>
      r <- RetrieveAllSnippetStorageMoves s opts options ;; Ret (ResList r)
  | CallRetrieveAllStorageMovesForSnippet snippet opts options =>
      r <- RetrieveAllStorageMovesForSnippet s snippet opts options ;;
      Ret (ResList r)
  | CallGetSnippetStorageMove id options =>
      r <- GetSnippetStorageMove s id options ;; Ret (ResRecord r)
  | CallGetStorageMoveForSnippet snippet id options =>
      r <- GetStorageMoveForSnippet s snippet id options ;; Ret (ResRecord r)
  | CallScheduleStorageMoveForSnippet snippet opts options =>
      r <- ScheduleStorageMoveForSnippet s snippet opts options ;;
      Ret (ResRecord r)
  | CallScheduleAllSnippetStorageMoves opts options =>
      r <- ScheduleAllSnippetStorageMoves s opts options ;; Ret (ResMeta r)
  end.

Definition result_err (r : OpResult) : option error :=
  match r with
  | ResList (_, _, err) | ResRecord (_, _, err) | ResMeta (_, err) => err
  end.

Definition result_resp (r : OpResult) : option Response :=
  match r with
  | ResList (_, resp, _) | ResRecord (_, resp, _) | ResMeta (resp, _) => resp
  end.

(** Whether the first result (a slice or a record pointer) is nil; the
    schedule-all operation has no such result. *)
Definition result_value_is_nil (r : OpResult) : bool :=
  match r with
  | ResList (None, _, _) | ResRecord (None, _, _) => true
  | ResList (Some _, _, _) | ResRecord (Some _, _, _) => false
  | ResMeta _ => true
  end.

Definition returns_record (o : OpCall) : bool :=
  match o with
  | CallGetSnippetStorageMove _ _
  | CallGetStorageMoveForSnippet _ _ _
  | CallScheduleStorageMoveForSnippet _ _ _ => true
  | _ => false
  end.

Definition returns_value (o : OpCall) : bool :=
  match o with
  | CallScheduleAllSnippetStorageMoves _ _ => false
  | _ => true
  end.

(** The hooks the caller handed to a call. *)
Definition call_hooks (o : OpCall) : list RequestOptionFunc :=
  match o with
  | CallRetrieveAllSnippetStorageMoves _ options
  | CallRetrieveAllStorageMovesForSnippet _ _ options
  | CallGetSnippetStorageMove _ options
  | CallGetStorageMoveForSnippet _ _ options
  | CallScheduleStorageMoveForSnippet _ _ options
  | CallScheduleAllSnippetStorageMoves _ options => options
  end.

(** Two calls of the same operation on the same identifiers. *)
Definition same_target (a b : OpCall) : bool :=
  match a, b with
  | CallRetrieveAllSnippetStorageMoves _ _,
    CallRetrieveAllSnippetStorageMoves _ _ => true
  | CallRetrieveAllStorageMovesForSnippet s1 _ _,
    CallRetrieveAllStorageMovesForSnippet s2 _ _ => Z.eqb s1 s2
  | CallGetSnippetStorageMove i1 _, CallGetSnippetStorageMove i2 _ =>
      Z.eqb i1 i2
  | CallGetStorageMoveForSnippet s1 i1 _,
    CallGetStorageMoveForSnippet s2 i2 _ => Z.eqb s1 s2 && Z.eqb i1 i2
  | CallScheduleStorageMoveForSnippet s1 _ _,
    CallScheduleStorageMoveForSnippet s2 _ _ => Z.eqb s1 s2
  | CallScheduleAllSnippetStorageMoves _ _,
    CallScheduleAllSnippetStorageMoves _ _ => true
  | _, _ => false
  end.

(** The value a decode target holds before anything is decoded into it:
    [var ssms []*T] and [var ssm *T] are nil, [new(T)] is the zero record. *)
Definition zero_target (k : TargetKind) : target_val k :=
  match k with
  | SliceTarget => None
  | RecordTarget => zero_SnippetRepositoryStorageMove
  | RecordPtrTarget => None
  end.

(** The first result of a call: a slice, a record pointer, or nothing. *)
Inductive Payload : Type :=
| PayloadList (l : option (list (option SnippetRepositoryStorageMove)))
| PayloadRecord (m : option SnippetRepositoryStorageMove)
| PayloadNone.

Definition result_payload (r : OpResult) : Payload :=
  match r with
  | ResList (l, _, _) => PayloadList l
  | ResRecord (m, _, _) => PayloadRecord m
  | ResMeta _ => PayloadNone
  end.

(** Method and path of the request a program starts with. *)
Definition first_request {A : Type} (p : Prog A) : option (string * string) :=
  match p with
  | Call (NewRequestE _ method path _ _) _ => Some (method, path)
  | _ => None
  end.

(** ** Running a program against a client *)

Section Run.

(** The state behind a [*Client] and its two methods.  Either method may
    change the client it is called on. *)
Variable ClientState : Type.
Variable NewRequest :
  ClientState -> string -> string -> RequestOpt -> list RequestOptionFunc ->
  (option Request * option error) * ClientState.
Variable Do :
  forall k : TargetKind, ClientState -> option Request -> target_val k ->
  (target_val k * (option Response * option error)) * ClientState.

Definition Store : Type := ClientRef -> ClientState.

Definition store_set (h : Store) (c : ClientRef) (st : ClientState) : Store :=
  fun c' => if Nat.eqb c' c then st else h c'.

(** A call made on the client, with what it answered. *)
Inductive Logged : Type :=
| LogNewRequest (c : ClientRef) (method path : string) (opt : RequestOpt)
    (options : list RequestOptionFunc)
    (out : option Request * option error)
| LogDo (c : ClientRef) (req : option Request) (k : TargetKind)
    (before after : target_val k)
    (out : option Response * option error).

Definition handle {X : Type} (e : ClientE X) (h : Store)
  : X * Store * list Logged :=
  match e in ClientE X return X * Store * list Logged with
  | NewRequestE c method path opt options =>
      let '(out, st) := NewRequest (h c) method path opt options in
      (out, store_set h c st, [LogNewRequest c method path opt options out])
  | DoE c req k v =>
      let '((v', out), st) := Do k (h c) req v in
      ((v', out), store_set h c st, [LogDo c req k v v' out])
  end.

Fixpoint run {A : Type} (p : Prog A) (h : Store) : A * Store * list Logged :=
  match p with
  | Ret a => (a, h, [])
  | Call e k =>
      let '(x, h1, l1) := handle e h in
      let '(a, h2, l2) := run (k x) h1 in
      (a, h2, (l1 ++ l2)%list)
  end.

Definition logged_err (l : Logged) : option error :=
  match l with
  | LogNewRequest _ _ _ _ _ (_, err) => err
  | LogDo _ _ _ _ _ (_, err) => err
  end.

Definition logged_client (l : Logged) : ClientRef :=
  match l with
  | LogNewRequest c _ _ _ _ _ => c
  | LogDo c _ _ _ _ _ => c
  end.

Definition is_NewRequest (l : Logged) : bool :=
  match l with
  | LogNewRequest _ _ _ _ _ _ => true
  | LogDo _ _ _ _ _ _ => false
  end.

Definition is_Do (l : Logged) : bool := negb (is_NewRequest l).

(** Method and path of every request that was constructed. *)
Fixpoint endpoints (log : list Logged) : list (string * string) :=
  match log with
  | [] => []
  | LogNewRequest _ method path _ _ _ :: log' =>
      (method, path) :: endpoints log'
  | LogDo _ _ _ _ _ _ :: log' => endpoints log'
  end.

(** The [opt] argument of every request that was constructed. *)
Fixpoint opts_passed (log : list Logged) : list RequestOpt :=
  match log with
  | [] => []
  | LogNewRequest _ _ _ opt _ _ :: log' => opt :: opts_passed log'
  | LogDo _ _ _ _ _ _ :: log' => opts_passed log'
  end.

(** The hook list of every request that was constructed. *)
Fixpoint hooks_passed (log : list Logged) : list (list RequestOptionFunc) :=
  match log with
  | [] => []
  | LogNewRequest _ _ _ _ options _ :: log' => options :: hooks_passed log'
  | LogDo _ _ _ _ _ _ :: log' => hooks_passed log'
  end.

(** The requests the constructor returned without an error. *)
Fixpoint constructed (log : list Logged) : list (option Request) :=
  match log with
  | [] => []
  | LogNewRequest _ _ _ _ _ (req, None) :: log' => req :: constructed log'
  | _ :: log' => constructed log'
  end.

(** The requests handed to the executor. *)
Fixpoint executed (log : list Logged) : list (option Request) :=
  match log with
  | [] => []
  | LogDo _ req _ _ _ _ :: log' => req :: executed log'
  | _ :: log' => executed log'
  end.

(** The responses the executor gave. *)
Fixpoint responses (log : list Logged) : list (option Response) :=
  match log with
  | [] => []
  | LogDo _ _ _ _ _ (resp, _) :: log' => resp :: responses log'
  | _ :: log' => responses log'
  end.

(** The executor was handed a target nothing had been decoded into. *)
Definition fresh_target (l : Logged) : Prop :=
  match l with
  | LogDo _ _ k before _ _ => before = zero_target k
  | LogNewRequest _ _ _ _ _ _ => True
  end.

(** What an executor call left in its target, as the caller of the
    operation would receive it: the slice itself, the address of the record
    that was allocated for the call, and nothing for the pointer that stays
    local. *)
Definition logged_payload (l : Logged) : Payload :=
  match l with
  | LogDo _ _ k _ after _ =>
      match k return target_val k -> Payload with
      | SliceTarget => fun v => PayloadList v
      | RecordTarget => fun v => PayloadRecord (Some v)
      | RecordPtrTarget => fun _ => PayloadNone
      end after
  | LogNewRequest _ _ _ _ _ _ => PayloadNone
  end.

(** The call was not turned away before the client: the request constructor
    was asked for this endpoint, and the request it produced, if any, was
    handed to the executor. *)
Definition reaches_client (log : list Logged) (method path : string) : Prop :=
  match log with
  | LogNewRequest _ m p _ _ (req, None) :: rest =>
      m = method /\ p = path
      /\ exists c k v v' out, rest = [LogDo c req k v v' out]
  | LogNewRequest _ m p _ _ (_, Some _) :: rest =>
      m = method /\ p = path /\ rest = []
  | _ => False
  end.

(** ** A caller holding a service value *)

(** The methods have value receivers: a call copies the caller's service
    value into [s], and nothing of [s] flows back. *)
Record Caller : Type := {
  svc : SnippetRepositoryStorageMoveService;
  store : Store
}.

Definition step (c : Caller) (o : OpCall) : Caller * OpResult * list Logged :=
  let '(r, h, log) := run (invoke (svc c) o) (store c) in
  ({| svc := svc c; store := h |}, r, log).

Fixpoint exec (c : Caller) (ops : list OpCall)
  : Caller * list OpResult * list Logged :=
  match ops with
  | [] => (c, [], [])
  | o :: ops' =>
      let '(c1, r, l1) := step c o in
      let '(c2, rs, l2) := exec c1 ops' in
      (c2, r :: rs, (l1 ++ l2)%list)
  end.

End Run.

End Model.

Arguments Ret {Time ListOptions RequestOptionFunc Request Response error A} a.
Arguments Call {Time ListOptions RequestOptionFunc Request Response error A X}
  e k.
Arguments RetrieveAllSnippetStorageMoves
  {Time ListOptions RequestOptionFunc Request Response
  error}.
Arguments RetrieveAllStorageMovesForSnippet
  {Time ListOptions RequestOptionFunc Request Response
  error}.
Arguments GetSnippetStorageMove
  {Time ListOptions RequestOptionFunc Request Response
  error}.
Arguments GetStorageMoveForSnippet
  {Time ListOptions RequestOptionFunc Request Response
  error}.
Arguments ScheduleStorageMoveForSnippet
  {Time ListOptions RequestOptionFunc Request Response
  error}.
Arguments ScheduleAllSnippetStorageMoves
  {Time ListOptions RequestOptionFunc Request Response
  error}.
Arguments CallRetrieveAllSnippetStorageMoves {ListOptions RequestOptionFunc}
  opts options.
Arguments CallRetrieveAllStorageMovesForSnippet
  {ListOptions RequestOptionFunc} snippet opts options.
Arguments CallGetSnippetStorageMove {ListOptions RequestOptionFunc}
  repositoryStorage options.
Arguments CallGetStorageMoveForSnippet {ListOptions RequestOptionFunc}
  snippet repositoryStorage options.
Arguments CallScheduleStorageMoveForSnippet {ListOptions RequestOptionFunc}
  snippet opts options.
Arguments CallScheduleAllSnippetStorageMoves {ListOptions RequestOptionFunc}
  opts options.
Arguments OptNil {ListOptions}.
Arguments OptList {ListOptions} opts.
Arguments OptSchedule {ListOptions} opts.
Arguments run {Time ListOptions RequestOptionFunc Request Response error
  ClientState} NewRequest Do {A} p h.
Arguments step {Time ListOptions RequestOptionFunc Request Response error
  ClientState} NewRequest Do c o.
Arguments exec {Time ListOptions RequestOptionFunc Request Response error
  ClientState} NewRequest Do c ops.
Arguments invoke {Time ListOptions RequestOptionFunc Request Response error}
  s o.
Arguments svc {ClientState} c.
Arguments store {ClientState} c.
Arguments store_set {ClientState} h c st.
Arguments result_err {Time Response error} r.
Arguments result_resp {Time Response error} r.
Arguments result_value_is_nil {Time Response error} r.
Arguments returns_record {ListOptions RequestOptionFunc} o.
Arguments returns_value {ListOptions RequestOptionFunc} o.
Arguments documented_endpoint {ListOptions RequestOptionFunc} o.
Arguments logged_err {Time ListOptions RequestOptionFunc Request Response
  error} l.
Arguments logged_client {Time ListOptions RequestOptionFunc Request Response
  error} l.
Arguments is_NewRequest {Time ListOptions RequestOptionFunc Request Response
  error} l.
Arguments is_Do {Time ListOptions RequestOptionFunc Request Response error} l.
Arguments endpoints {Time ListOptions RequestOptionFunc Request Response
  error} log.
Arguments opts_passed {Time ListOptions RequestOptionFunc Request Response
  error} log.
Arguments reaches_client {Time ListOptions RequestOptionFunc Request Response
  error} log method path.
Arguments call_hooks {ListOptions RequestOptionFunc} o.
Arguments same_target {ListOptions RequestOptionFunc} a b.
Arguments zero_target {Time} k.
Arguments PayloadList {Time} l.
Arguments PayloadRecord {Time} m.
Arguments PayloadNone {Time}.
Arguments result_payload {Time Response error} r.
Arguments first_request {Time ListOptions RequestOptionFunc Request Response
  error A} p.
Arguments hooks_passed {Time ListOptions RequestOptionFunc Request Response
  error} log.
Arguments constructed {Time ListOptions RequestOptionFunc Request Response
  error} log.
Arguments executed {Time ListOptions RequestOptionFunc Request Response
  error} log.
Arguments responses {Time ListOptions RequestOptionFunc Request Response
  error} log.
Arguments fresh_target {Time ListOptions RequestOptionFunc Request Response
  error} l.
Arguments logged_payload {Time ListOptions RequestOptionFunc Request Response
  error} l.
Arguments LogNewRequest {Time ListOptions RequestOptionFunc Request Response
  error} c method path opt options out.
Arguments LogDo {Time ListOptions RequestOptionFunc Request Response error}
  c req k before after out.
Arguments ResList {Time Response error} r.
Arguments ResRecord {Time Response error} r.
Arguments ResMeta {Time Response error} r.
Arguments bs_ID {Time} b.
Arguments bs_Title {Time} b.
Arguments bs_Description {Time} b.
Arguments bs_Visibility {Time} b.
Arguments bs_UpdatedAt {Time} b.
Arguments bs_CreatedAt {Time} b.
Arguments bs_ProjectID {Time} b.
Arguments bs_WebURL {Time} b.
Arguments bs_RawURL {Time} b.
Arguments bs_SshUrlToRepo {Time} b.
Arguments bs_HttpUrlToRepo {Time} b.
Arguments ssm_ID {Time} s.
Arguments ssm_CreatedAt {Time} s.
Arguments ssm_State {Time} s.
Arguments ssm_SourceStorageName {Time} s.
Arguments ssm_DestinationStorageName {Time} s.
Arguments ssm_Snippet {Time} s.
Arguments zero_BasicSnippet {Time}.
Arguments zero_SnippetRepositoryStorageMove {Time}.

(** ** Characters of a path *)

Fixpoint string_forallb (f : ascii -> bool) (s : string) : bool :=
  match s with
  | EmptyString => true
  | String c rest => f c && string_forallb f rest
  end.

(** Lower-case letters, digits, and the three marks [_], [/] and [-]: none
    of them needs escaping in a URL path, and none starts a query or a
    fragment. *)
Definition path_char_ok (c : ascii) : bool :=
  let n := nat_of_ascii c in
  ((97 <=? n) && (n <=? 122))%nat || ((48 <=? n) && (n <=? 57))%nat
  || Ascii.eqb c "_" || Ascii.eqb c "/" || Ascii.eqb c "-".

Definition not_slash (c : ascii) : bool := negb (Ascii.eqb c "/").

(** ** JSON values *)

(** A parsed JSON text.  Numbers are kept apart by whether the literal is an
    integer, which is what decides whether a Go [int] accepts them. *)
#[warnings="-register-all"]
Inductive JSON : Type :=
| JNull
| JBool (b : bool)
| JNumber (n : Z)
| JFraction (literal : string)
| JString (s : string)
| JArray (items : list JSON)
| JObject (members : list (string * JSON)).

Fixpoint jget (key : string) (members : list (string * JSON)) : option JSON :=
  match members with
  | [] => None
  | (k, v) :: rest => if String.eqb k key then Some v else jget key rest
  end.

Definition has_key (key : string) (members : list (string * JSON)) : bool :=
  existsb (fun kv => String.eqb (fst kv) key) members.

Fixpoint nodup_keys (members : list (string * JSON)) : bool :=
  match members with
  | [] => true
  | (k, _) :: rest => negb (has_key k rest) && nodup_keys rest
  end.

(** ** Serialising the mutation options *)

(** A [json:"name,omitempty"] struct tag. *)
Record FieldTag : Type := {
  tag_name : string;
  tag_omitempty : bool
}.

Definition tag_SourceStorageName : FieldTag :=
  {| tag_name := "source_storage_name"; tag_omitempty := true |}.

Definition tag_DestinationStorageName : FieldTag :=
  {| tag_name := "destination_storage_name"; tag_omitempty := true |}.

(** Modelled from the spec: the encoder is not part of this file.  A string
    field becomes one member under its tag name; with omitted-when-empty
    semantics the empty string produces no member at all. *)
Definition marshal_string (t : FieldTag) (v : string)
  : list (string * JSON) :=
  if tag_omitempty t && String.eqb v "" then []
  else [(tag_name t, JString v)].

(** Modelled from the spec: the request body of the mutation endpoints, its
    members in the order the struct declares its fields. *)
Definition Marshal_ScheduleSnippetStorageMoveOptions
    (o : ScheduleSnippetStorageMoveOptions) : list (string * JSON) :=
  (marshal_string tag_SourceStorageName (opt_SourceStorageName o)
   ++ marshal_string tag_DestinationStorageName
        (opt_DestinationStorageName o))%list.

(** ** The client library, as the specification describes it *)

Inductive ClientError : Type :=
| ErrRequest (msg : string)
| ErrTransport (msg : string)
| ErrStatus (code : Z)
| ErrDecode (msg : string).

(** What the remote service does with one request: no answer at all, or a
    status with a body; a body that is not JSON text is [None]. *)
Inductive Reply : Type :=
| NoReply (msg : string)
| HTTPReply (status : Z) (body : option JSON).

Record HTTPResponse : Type := {
  StatusCode : Z
}.

Record HTTPRequest : Type := {
  req_method : string;
  req_path : string;
  req_query : list (string * string);
  req_body : option JSON
}.

(** A request-option hook adjusts the request or refuses it. *)
Definition ModelOption : Type := HTTPRequest -> HTTPRequest + ClientError.

Fixpoint apply_options (options : list ModelOption) (r : HTTPRequest)
  : HTTPRequest + ClientError :=
  match options with
  | [] => inl r
  | fn :: rest =>
      match fn r with
      | inl r' => apply_options rest r'
      | inr e => inr e
      end
  end.

Definition first_error (e1 e2 : option ClientError) : option ClientError :=
  match e1 with
  | Some _ => e1
  | None => e2
  end.

(** Decoding the members of a JSON object into a struct, member after
    member; the first failure is the one reported. *)
Fixpoint decode_members {R : Type}
    (set : string -> JSON -> R -> R * option ClientError)
    (members : list (string * JSON)) (r : R) : R * option ClientError :=
  match members with
  | [] => (r, None)
  | (k, v) :: rest =>
      let '(r1, e1) := set k v r in
      let '(r2, e2) := decode_members set rest r1 in
      (r2, first_error e1 e2)
  end.

(** A Go [int] has 64 bits. *)
Definition int_ok (n : Z) : bool := (- 2 ^ 63 <=? n) && (n <? 2 ^ 63).

Definition decode_int (j : JSON) (old : Z) : Z * option ClientError :=
  match j with
  | JNull => (old, None)
  | JNumber n =>
      if int_ok n then (n, None)
      else (old, Some (ErrDecode "number out of range for int"))
  | _ => (old, Some (ErrDecode "cannot decode into int"))
  end.

Definition decode_string (j : JSON) (old : string)
  : string * option ClientError :=
  match j with
  | JNull => (old, None)
  | JString s => (s, None)
  | _ => (old, Some (ErrDecode "cannot decode into string"))
  end.

Section Remote.

(** [time.Time] and its reading of a timestamp string; the pagination
    options with their two encoders. *)
Variable Time : Type.
Variable time_UnmarshalJSON : string -> option Time.
Variable ListOptions : Type.
Variable query_Values : ListOptions -> list (string * string).
Variable Marshal_ListOptions : ListOptions -> JSON.

Definition decode_time (j : JSON) (old : option Time)
  : option Time * option ClientError :=
  match j with
  | JNull => (None, None)
  | JString s =>
      match time_UnmarshalJSON s with
      | Some t => (Some t, None)
      | None => (old, Some (ErrDecode "cannot parse timestamp"))
      end
  | _ => (old, Some (ErrDecode "cannot decode into time"))
  end.

Definition set_bs_ID (v : Z) (b : BasicSnippet Time) : BasicSnippet Time :=
  {| bs_ID := v; bs_Title := bs_Title b; bs_Description := bs_Description b;
     bs_Visibility := bs_Visibility b; bs_UpdatedAt := bs_UpdatedAt b;
     bs_CreatedAt := bs_CreatedAt b; bs_ProjectID := bs_ProjectID b;
     bs_WebURL := bs_WebURL b; bs_RawURL := bs_RawURL b;
     bs_SshUrlToRepo := bs_SshUrlToRepo b;
     bs_HttpUrlToRepo := bs_HttpUrlToRepo b |}.

Definition set_bs_Title (v : string) (b : BasicSnippet Time)
  : BasicSnippet Time :=
  {| bs_ID := bs_ID b; bs_Title := v; bs_Description := bs_Description b;
     bs_Visibility := bs_Visibility b; bs_UpdatedAt := bs_UpdatedAt b;
     bs_CreatedAt := bs_CreatedAt b; bs_ProjectID := bs_ProjectID b;
     bs_WebURL := bs_WebURL b; bs_RawURL := bs_RawURL b;
     bs_SshUrlToRepo := bs_SshUrlToRepo b;
     bs_HttpUrlToRepo := bs_HttpUrlToRepo b |}.

Definition set_bs_Description (v : string) (b : BasicSnippet Time)
  : BasicSnippet Time :=
  {| bs_ID := bs_ID b; bs_Title := bs_Title b; bs_Description := v;
     bs_Visibility := bs_Visibility b; bs_UpdatedAt := bs_UpdatedAt b;
     bs_CreatedAt := bs_CreatedAt b; bs_ProjectID := bs_ProjectID b;
     bs_WebURL := bs_WebURL b; bs_RawURL := bs_RawURL b;
     bs_SshUrlToRepo := bs_SshUrlToRepo b;
     bs_HttpUrlToRepo := bs_HttpUrlToRepo b |}.

Definition set_bs_Visibility (v : VisibilityValue) (b : BasicSnippet Time)
  : BasicSnippet Time :=
  {| bs_ID := bs_ID b; bs_Title := bs_Title b;
     bs_Description := bs_Description b; bs_Visibility := v;
     bs_UpdatedAt := bs_UpdatedAt b; bs_CreatedAt := bs_CreatedAt b;
     bs_ProjectID := bs_ProjectID b; bs_WebURL := bs_WebURL b;
     bs_RawURL := bs_RawURL b; bs_SshUrlToRepo := bs_SshUrlToRepo b;
     bs_HttpUrlToRepo := bs_HttpUrlToRepo b |}.

Definition set_bs_UpdatedAt (v : option Time) (b : BasicSnippet Time)
  : BasicSnippet Time :=
  {| bs_ID := bs_ID b; bs_Title := bs_Title b;
     bs_Description := bs_Description b; bs_Visibility := bs_Visibility b;
     bs_UpdatedAt := v; bs_CreatedAt := bs_CreatedAt b;
     bs_ProjectID := bs_ProjectID b; bs_WebURL := bs_WebURL b;
     bs_RawURL := bs_RawURL b; bs_SshUrlToRepo := bs_SshUrlToRepo b;
     bs_HttpUrlToRepo := bs_HttpUrlToRepo b |}.

Definition set_bs_CreatedAt (v : option Time) (b : BasicSnippet Time)
  : BasicSnippet Time :=
  {| bs_ID := bs_ID b; bs_Title := bs_Title b;
     bs_Description := bs_Description b; bs_Visibility := bs_Visibility b;
     bs_UpdatedAt := bs_UpdatedAt b; bs_CreatedAt := v;
     bs_ProjectID := bs_ProjectID b; bs_WebURL := bs_WebURL b;
     bs_RawURL := bs_RawURL b; bs_SshUrlToRepo := bs_SshUrlToRepo b;
     bs_HttpUrlToRepo := bs_HttpUrlToRepo b |}.

Definition set_bs_ProjectID (v : Z) (b : BasicSnippet Time)
  : BasicSnippet Time :=
  {| bs_ID := bs_ID b; bs_Title := bs_Title b;
     bs_Description := bs_Description b; bs_Visibility := bs_Visibility b;
     bs_UpdatedAt := bs_UpdatedAt b; bs_CreatedAt := bs_CreatedAt b;
     bs_ProjectID := v; bs_WebURL := bs_WebURL b; bs_RawURL := bs_RawURL b;
     bs_SshUrlToRepo := bs_SshUrlToRepo b;
     bs_HttpUrlToRepo := bs_HttpUrlToRepo b |}.

Definition set_bs_WebURL (v : string) (b : BasicSnippet Time)
  : BasicSnippet Time :=
  {| bs_ID := bs_ID b; bs_Title := bs_Title b;
     bs_Description := bs_Description b; bs_Visibility := bs_Visibility b;
     bs_UpdatedAt := bs_UpdatedAt b; bs_CreatedAt := bs_CreatedAt b;
     bs_ProjectID := bs_ProjectID b; bs_WebURL := v;
     bs_RawURL := bs_RawURL b; bs_SshUrlToRepo := bs_SshUrlToRepo b;
     bs_HttpUrlToRepo := bs_HttpUrlToRepo b |}.

Definition set_bs_RawURL (v : string) (b : BasicSnippet Time)
  : BasicSnippet Time :=
  {| bs_ID := bs_ID b; bs_Title := bs_Title b;
     bs_Description := bs_Description b; bs_Visibility := bs_Visibility b;
     bs_UpdatedAt := bs_UpdatedAt b; bs_CreatedAt := bs_CreatedAt b;
     bs_ProjectID := bs_ProjectID b; bs_WebURL := bs_WebURL b;
     bs_RawURL := v; bs_SshUrlToRepo := bs_SshUrlToRepo b;
     bs_HttpUrlToRepo := bs_HttpUrlToRepo b |}.

Definition set_bs_SshUrlToRepo (v : string) (b : BasicSnippet Time)
  : BasicSnippet Time :=
  {| bs_ID := bs_ID b; bs_Title := bs_Title b;
     bs_Description := bs_Description b; bs_Visibility := bs_Visibility b;
     bs_UpdatedAt := bs_UpdatedAt b; bs_CreatedAt := bs_CreatedAt b;
     bs_ProjectID := bs_ProjectID b; bs_WebURL := bs_WebURL b;
     bs_RawURL := bs_RawURL b; bs_SshUrlToRepo := v;
     bs_HttpUrlToRepo := bs_HttpUrlToRepo b |}.

Definition set_bs_HttpUrlToRepo (v : string) (b : BasicSnippet Time)
  : BasicSnippet Time :=
  {| bs_ID := bs_ID b; bs_Title := bs_Title b;
     bs_Description := bs_Description b; bs_Visibility := bs_Visibility b;
     bs_UpdatedAt := bs_UpdatedAt b; bs_CreatedAt := bs_CreatedAt b;
     bs_ProjectID := bs_ProjectID b; bs_WebURL := bs_WebURL b;
     bs_RawURL := bs_RawURL b; bs_SshUrlToRepo := bs_SshUrlToRepo b;
     bs_HttpUrlToRepo := v |}.


(** Modelled from the spec: the decoder is not part of this file.  Response
    members map to the attributes of the snippet snapshot under the
    snake_case names of the struct tags; other members are skipped. *)
Definition set_BasicSnippet_field (key : string) (j : JSON)
    (b : BasicSnippet Time)
  : BasicSnippet Time * option ClientError :=
  if String.eqb key "id" then
    let '(v, e) := decode_int j (bs_ID b) in (set_bs_ID v b, e)
  else
  if String.eqb key "title" then
    let '(v, e) := decode_string j (bs_Title b) in (set_bs_Title v b, e)
  else
  if String.eqb key "description" then
    let '(v, e) := decode_string j (bs_Description b) in
    (set_bs_Description v b, e)
  else
  if String.eqb key "visibility" then
    let '(v, e) := decode_string j (bs_Visibility b) in
    (set_bs_Visibility v b, e)
  else
  if String.eqb key "updated_at" then
    let '(v, e) := decode_time j (bs_UpdatedAt b) in (set_bs_UpdatedAt v b, e)
  else
  if String.eqb key "created_at" then
    let '(v, e) := decode_time j (bs_CreatedAt b) in (set_bs_CreatedAt v b, e)
  else
  if String.eqb key "project_id" then
    let '(v, e) := decode_int j (bs_ProjectID b) in (set_bs_ProjectID v b, e)
  else
  if String.eqb key "web_url" then
    let '(v, e) := decode_string j (bs_WebURL b) in (set_bs_WebURL v b, e)
  else
  if String.eqb key "raw_url" then
    let '(v, e) := decode_string j (bs_RawURL b) in (set_bs_RawURL v b, e)
  else
  if String.eqb key "ssh_url_to_repo" then
    let '(v, e) := decode_string j (bs_SshUrlToRepo b) in
    (set_bs_SshUrlToRepo v b, e)
  else
  if String.eqb key "http_url_to_repo" then
    let '(v, e) := decode_string j (bs_HttpUrlToRepo b) in
    (set_bs_HttpUrlToRepo v b, e)
  else (b, None).

Definition decode_BasicSnippet (j : JSON) (old : BasicSnippet Time)
  : BasicSnippet Time * option ClientError :=
  match j with
  | JNull => (old, None)
  | JObject members => decode_members set_BasicSnippet_field members old
  | _ => (old, Some (ErrDecode "cannot decode into BasicSnippet"))
  end.

Definition set_ssm_ID (v : Z)
    (m : SnippetRepositoryStorageMove Time)
  : SnippetRepositoryStorageMove Time :=
  {| ssm_ID := v; ssm_CreatedAt := ssm_CreatedAt m; ssm_State := ssm_State m;
     ssm_SourceStorageName := ssm_SourceStorageName m;
     ssm_DestinationStorageName := ssm_DestinationStorageName m;
     ssm_Snippet := ssm_Snippet m |}.

Definition set_ssm_CreatedAt (v : option Time)
    (m : SnippetRepositoryStorageMove Time)
  : SnippetRepositoryStorageMove Time :=
  {| ssm_ID := ssm_ID m; ssm_CreatedAt := v; ssm_State := ssm_State m;
     ssm_SourceStorageName := ssm_SourceStorageName m;
     ssm_DestinationStorageName := ssm_DestinationStorageName m;
     ssm_Snippet := ssm_Snippet m |}.

Definition set_ssm_State (v : string)
    (m : SnippetRepositoryStorageMove Time)
  : SnippetRepositoryStorageMove Time :=
  {| ssm_ID := ssm_ID m; ssm_CreatedAt := ssm_CreatedAt m; ssm_State := v;
     ssm_SourceStorageName := ssm_SourceStorageName m;
     ssm_DestinationStorageName := ssm_DestinationStorageName m;
     ssm_Snippet := ssm_Snippet m |}.

Definition set_ssm_SourceStorageName (v : string)
    (m : SnippetRepositoryStorageMove Time)
  : SnippetRepositoryStorageMove Time :=
  {| ssm_ID := ssm_ID m; ssm_CreatedAt := ssm_CreatedAt m;
     ssm_State := ssm_State m; ssm_SourceStorageName := v;
     ssm_DestinationStorageName := ssm_DestinationStorageName m;
     ssm_Snippet := ssm_Snippet m |}.

Definition set_ssm_DestinationStorageName (v : string)
    (m : SnippetRepositoryStorageMove Time)
  : SnippetRepositoryStorageMove Time :=
  {| ssm_ID := ssm_ID m; ssm_CreatedAt := ssm_CreatedAt m;
     ssm_State := ssm_State m;
     ssm_SourceStorageName := ssm_SourceStorageName m;
     ssm_DestinationStorageName := v; ssm_Snippet := ssm_Snippet m |}.

Definition set_ssm_Snippet (v : BasicSnippet Time)
    (m : SnippetRepositoryStorageMove Time)
  : SnippetRepositoryStorageMove Time :=
  {| ssm_ID := ssm_ID m; ssm_CreatedAt := ssm_CreatedAt m;
     ssm_State := ssm_State m;
     ssm_SourceStorageName := ssm_SourceStorageName m;
     ssm_DestinationStorageName := ssm_DestinationStorageName m;
     ssm_Snippet := v |}.

(** Modelled from the spec: as above, for the storage-move record. *)
Definition set_SnippetRepositoryStorageMove_field (key : string)
    (j : JSON) (m : SnippetRepositoryStorageMove Time)
  : SnippetRepositoryStorageMove Time * option ClientError :=
  if String.eqb key "id" then
    let '(v, e) := decode_int j (ssm_ID m) in (set_ssm_ID v m, e)
  else
  if String.eqb key "created_at" then
    let '(v, e) := decode_time j (ssm_CreatedAt m) in
    (set_ssm_CreatedAt v m, e)
  else
  if String.eqb key "state" then
    let '(v, e) := decode_string j (ssm_State m) in (set_ssm_State v m, e)
  else
  if String.eqb key "source_storage_name" then
    let '(v, e) := decode_string j (ssm_SourceStorageName m) in
    (set_ssm_SourceStorageName v m, e)
  else
  if String.eqb key "destination_storage_name" then
    let '(v, e) := decode_string j (ssm_DestinationStorageName m) in
    (set_ssm_DestinationStorageName v m, e)
  else
  if String.eqb key "snippet" then
    let '(v, e) := decode_BasicSnippet j (ssm_Snippet m) in
    (set_ssm_Snippet v m, e)
  else (m, None).

(** A pointer element of the slice, or the target of a pointer to a
    pointer: [null] leaves it nil, an object fills a record. *)
Definition decode_pointer (j : JSON)
    (old : option (SnippetRepositoryStorageMove Time))
  : option (SnippetRepositoryStorageMove Time) * option ClientError :=
  match j with
  | JNull => (None, None)
  | JObject members =>
      let start :=
        match old with
        | Some m => m
        | None => zero_SnippetRepositoryStorageMove
        end in
      let '(m, e) :=
        decode_members set_SnippetRepositoryStorageMove_field members start in
      (Some m, e)
  | _ => (old, Some (ErrDecode "cannot decode into storage move"))
  end.

Fixpoint decode_items (items : list JSON)
  : list (option (SnippetRepositoryStorageMove Time)) * option ClientError :=
  match items with
  | [] => ([], None)
  | j :: rest =>
      let '(p, e1) := decode_pointer j None in
      let '(ps, e2) := decode_items rest in
      (p :: ps, first_error e1 e2)
  end.

(** Modelled from the spec: decoding a response body into the target the
    operation handed over. *)
Definition Unmarshal (k : TargetKind) (j : JSON)
  : target_val Time k -> target_val Time k * option ClientError :=
  match k with
  | SliceTarget => fun v =>
      match j with
      | JNull => (None, None)
      | JArray items => let '(ps, e) := decode_items items in (Some ps, e)
      | _ => (v, Some (ErrDecode "cannot decode into slice"))
      end
  | RecordTarget => fun v =>
      match j with
      | JNull => (v, None)
      | JObject members =>
          decode_members set_SnippetRepositoryStorageMove_field members v
      | _ => (v, Some (ErrDecode "cannot decode into storage move"))
      end
  | RecordPtrTarget => fun v => decode_pointer j v
  end.

(** Modelled from the spec: the request constructor is not part of this
    file.  Option records travel as query parameters on a GET and as the JSON
    body otherwise; a hook that refuses the request is a request-construction
    failure.  Constructing a request does not touch the remote service. *)
Definition model_NewRequest (remote : list Reply) (method path : string)
    (opt : RequestOpt ListOptions) (options : list ModelOption)
  : (option HTTPRequest * option ClientError) * list Reply :=
  let query :=
    match opt with
    | OptList o => query_Values o
    | _ => []
    end in
  let body :=
    match opt with
    | OptNil => None
    | OptList o => Some (Marshal_ListOptions o)
    | OptSchedule o =>
        Some (JObject (Marshal_ScheduleSnippetStorageMoveOptions o))
    end in
  let r :=
    if String.eqb method MethodGet
    then {| req_method := method; req_path := path;
            req_query := query; req_body := None |}
    else {| req_method := method; req_path := path;
            req_query := []; req_body := body |} in
  match apply_options options r with
  | inl r' => ((Some r', None), remote)
  | inr e => ((None, Some e), remote)
  end.

Definition success_status (status : Z) : bool :=
  (200 <=? status) && (status <? 300).

(** Modelled from the spec: the request executor is not part of this file.
    It consumes the next answer of the remote service; a transport failure,
    a status outside 2xx and a body that does not decode are errors, and a
    decodable body is written through the target. *)
Definition model_Do (k : TargetKind) (remote : list Reply)
    (req : option HTTPRequest) (v : target_val Time k)
  : (target_val Time k * (option HTTPResponse * option ClientError))
    * list Reply :=
  match remote with
  | [] => ((v, (None, Some (ErrTransport "no answer"))), [])
  | NoReply msg :: rest => ((v, (None, Some (ErrTransport msg))), rest)
  | HTTPReply status body :: rest =>
      let resp := Some {| StatusCode := status |} in
      if success_status status then
        match body with
        | None => ((v, (resp, Some (ErrDecode "invalid JSON"))), rest)
        | Some j =>
            let '(v', e) := Unmarshal k j v in ((v', (resp, e)), rest)
        end
      else ((v, (resp, Some (ErrStatus status))), rest)
  end.

(** *** What the input JSON says, attribute by attribute *)

Definition json_int (j : option JSON) : Z :=
  match j with
  | Some (JNumber n) => n
  | _ => 0
  end.

Definition json_string (j : option JSON) : string :=
  match j with
  | Some (JString s) => s
  | _ => ""
  end.

Definition json_time (j : option JSON) : option Time :=
  match j with
  | Some (JString s) => time_UnmarshalJSON s
  | _ => None
  end.

Definition read_BasicSnippet (j : option JSON) : BasicSnippet Time :=
  match j with
  | Some (JObject ms) =>
      {| bs_ID := json_int (jget "id" ms);
         bs_Title := json_string (jget "title" ms);
         bs_Description := json_string (jget "description" ms);
         bs_Visibility := json_string (jget "visibility" ms);
         bs_UpdatedAt := json_time (jget "updated_at" ms);
         bs_CreatedAt := json_time (jget "created_at" ms);
         bs_ProjectID := json_int (jget "project_id" ms);
         bs_WebURL := json_string (jget "web_url" ms);
         bs_RawURL := json_string (jget "raw_url" ms);
         bs_SshUrlToRepo := json_string (jget "ssh_url_to_repo" ms);
         bs_HttpUrlToRepo := json_string (jget "http_url_to_repo" ms) |}
  | _ => zero_BasicSnippet
  end.

Definition read_SnippetRepositoryStorageMove (j : JSON)
  : SnippetRepositoryStorageMove Time :=
  match j with
  | JObject ms =>
      {| ssm_ID := json_int (jget "id" ms);
         ssm_CreatedAt := json_time (jget "created_at" ms);
         ssm_State := json_string (jget "state" ms);
         ssm_SourceStorageName := json_string (jget "source_storage_name" ms);
         ssm_DestinationStorageName :=
           json_string (jget "destination_storage_name" ms);
         ssm_Snippet := read_BasicSnippet (jget "snippet" ms) |}
  | _ => zero_SnippetRepositoryStorageMove
  end.

(** *** Well-formed storage-move objects *)

Inductive Kind : Type :=
| KInt
| KString
| KTime
| KSnippet.

Definition BasicSnippet_members : list (string * Kind) :=
  [("id", KInt); ("title", KString); ("description", KString);
   ("visibility", KString); ("updated_at", KTime); ("created_at", KTime);
   ("project_id", KInt); ("web_url", KString); ("raw_url", KString);
   ("ssh_url_to_repo", KString); ("http_url_to_repo", KString)].

Definition SnippetRepositoryStorageMove_members : list (string * Kind) :=
  [("id", KInt); ("created_at", KTime); ("state", KString);
   ("source_storage_name", KString); ("destination_storage_name", KString);
   ("snippet", KSnippet)].

Fixpoint kind_of (key : string) (table : list (string * Kind))
  : option Kind :=
  match table with
  | [] => None
  | (k, kind) :: rest =>
      if String.eqb key k then Some kind else kind_of key rest
  end.

(** A member is fine when its name is not an attribute, or its value has the
    attribute's type: an integer literal within [int], a string, a timestamp
    string that parses or [null]. *)
Definition scalar_ok (kind : Kind) (v : JSON) : bool :=
  match kind, v with
  | KInt, JNumber n => int_ok n
  | KString, JString _ => true
  | KTime, JNull => true
  | KTime, JString s =>
      match time_UnmarshalJSON s with
      | Some _ => true
      | None => false
      end
  | _, _ => false
  end.

Definition member_ok_BasicSnippet (kv : string * JSON) : bool :=
  match kind_of (fst kv) BasicSnippet_members with
  | Some kind => scalar_ok kind (snd kv)
  | None => true
  end.

Definition wf_BasicSnippet (j : JSON) : bool :=
  match j with
  | JObject ms => nodup_keys ms && forallb member_ok_BasicSnippet ms
  | _ => false
  end.

Definition member_ok_SnippetRepositoryStorageMove (kv : string * JSON)
  : bool :=
  match kind_of (fst kv) SnippetRepositoryStorageMove_members with
  | Some KSnippet => wf_BasicSnippet (snd kv)
  | Some kind => scalar_ok kind (snd kv)
  | None => true
  end.

Definition wf_SnippetRepositoryStorageMove (j : JSON) : bool :=
  match j with
  | JObject ms =>
      nodup_keys ms && forallb member_ok_SnippetRepositoryStorageMove ms
  | _ => false
  end.

End Remote.

Arguments decode_time {Time} time_UnmarshalJSON j old.
Arguments decode_BasicSnippet {Time} time_UnmarshalJSON j old.
Arguments set_BasicSnippet_field {Time} time_UnmarshalJSON key j b.
Arguments set_SnippetRepositoryStorageMove_field {Time} time_UnmarshalJSON
  key j m.
Arguments decode_pointer {Time} time_UnmarshalJSON j old.
Arguments decode_items {Time} time_UnmarshalJSON items.
Arguments Unmarshal {Time} time_UnmarshalJSON k j.
Arguments model_NewRequest {ListOptions} query_Values Marshal_ListOptions
  remote method path opt options.
Arguments model_Do {Time} time_UnmarshalJSON k remote req v.
Arguments json_time {Time} time_UnmarshalJSON j.
Arguments read_BasicSnippet {Time} time_UnmarshalJSON j.
Arguments read_SnippetRepositoryStorageMove {Time} time_UnmarshalJSON j.
Arguments scalar_ok {Time} time_UnmarshalJSON kind v.
Arguments member_ok_BasicSnippet {Time} time_UnmarshalJSON kv.
Arguments wf_BasicSnippet {Time} time_UnmarshalJSON j.
Arguments member_ok_SnippetRepositoryStorageMove {Time} time_UnmarshalJSON kv.
Arguments wf_SnippetRepositoryStorageMove {Time} time_UnmarshalJSON j.

(** ** A sample deployment *)

(** Pagination options with a page number and a page size. *)
Record SampleListOptions : Type := {
  Page : Z;
  PerPage : Z
}.

Definition sample_query_Values (o : SampleListOptions)
  : list (string * string) :=
  [("page", FormatInt (Page o)); ("per_page", FormatInt (PerPage o))].

Definition sample_Marshal_ListOptions (o : SampleListOptions) : JSON :=
  JObject [("page", JNumber (Page o)); ("per_page", JNumber (PerPage o))].

(** Timestamps kept as their text; the empty text does not parse. *)
Definition sample_UnmarshalTime (s : string) : option string :=
  if String.eqb s "" then None else Some s.

Definition sample_NewRequest :=
  model_NewRequest sample_query_Values sample_Marshal_ListOptions.

Definition sample_Do := model_Do sample_UnmarshalTime.

Definition sample_move : JSON :=
  JObject
    [("id", JNumber 7);
     ("created_at", JString "2023-01-05T10:00:00Z");
     ("state", JString "scheduled");
     ("source_storage_name", JString "default");
     ("destination_storage_name", JString "storage2");
     ("snippet",
      JObject [("id", JNumber 65); ("title", JString "Test Snippet");
               ("visibility", JString "internal");
               ("updated_at", JNull);
               ("web_url", JString "https://gitlab.example.com/snippets/65")]);
     ("links", JArray [])].

(** An object whose second attribute has the wrong type. *)
Definition sample_broken_move : JSON :=
  JObject [("id", JNumber 5); ("state", JNumber 3)].

Definition sample_service : SnippetRepositoryStorageMoveService :=
  {| client := 1%nat |}.

(** Every client in the store will hear the given answers. *)
Definition sample_store (answers : list Reply) : Store (list Reply) :=
  fun _ => answers.

Definition sample_options : ScheduleSnippetStorageMoveOptions :=
  {| opt_SourceStorageName := "default"; opt_DestinationStorageName := "" |}.

(** An executor that answers 204 to everything, decodes nothing and keeps
    no state. *)
Definition sample_idle_Do (k : TargetKind) (remote : list Reply)
    (req : option HTTPRequest) (v : target_val string k)
  : (target_val string k * (option HTTPResponse * option ClientError))
    * list Reply :=
  ((v, (Some {| StatusCode := 204 |}, None)), remote).

(** * Properties *)

(** ** Rendering identifiers *)

Lemma ParseInt_FormatInt (z : Z) : ParseInt (FormatInt z) = Some z.
Proof.
  unfold ParseInt, FormatInt.
  rewrite NilZero.isi.
  - simpl. now rewrite DecimalZ.of_to.
  - destruct z; simpl; try discriminate.
    intros [= H]. now apply DecimalPos.Unsigned.to_uint_nonnil in H.
  - destruct z; simpl; try discriminate.
    intros [= H]. now apply DecimalPos.Unsigned.to_uint_nonnil in H.
Qed.

Lemma FormatInt_inj (a b : Z) : FormatInt a = FormatInt b -> a = b.
Proof.
  intros H. apply (f_equal ParseInt) in H.
  rewrite !ParseInt_FormatInt in H. congruence.
Qed.

Lemma append_empty_r (s : string) : s ++ "" = s.
Proof. induction s as [| c s IH]; cbn; [reflexivity | now rewrite IH]. Qed.

Example FormatInt_42 : FormatInt 42 = "42".
Proof. reflexivity. Qed.

Example FormatInt_neg : FormatInt (-1) = "-1".
Proof. reflexivity. Qed.

Example fill_snippet_42 :
  fill "snippets/{snippet}/repository_storage_moves" None [("snippet", 42)]
  = "snippets/42/repository_storage_moves".
Proof. reflexivity. Qed.

Example fill_snippet_and_move :
  fill "snippets/{snippet}/repository_storage_moves/{id}" None
    [("snippet", -3); ("id", 0)]
  = "snippets/-3/repository_storage_moves/0".
Proof. reflexivity. Qed.

Lemma Sprintf_snippet_moves (snippet : Z) :
  Sprintf "snippets/%d/repository_storage_moves" [snippet]
  = fill "snippets/{snippet}/repository_storage_moves" None
      [("snippet", snippet)].
Proof. reflexivity. Qed.

Lemma Sprintf_move (id : Z) :
  Sprintf "snippet_repository_storage_moves/%d" [id]
  = fill "snippet_repository_storage_moves/{id}" None [("id", id)].
Proof. reflexivity. Qed.

Lemma Sprintf_snippet_move (snippet id : Z) :
  Sprintf "snippets/%d/repository_storage_moves/%d" [snippet; id]
  = fill "snippets/{snippet}/repository_storage_moves/{id}" None
      [("snippet", snippet); ("id", id)].
Proof. reflexivity. Qed.

(** ** Characters of a rendered identifier *)

Lemma string_forallb_app (f : ascii -> bool) (a b : string) :
  string_forallb f (a ++ b) = string_forallb f a && string_forallb f b.
Proof.
  induction a as [| c a IH]; cbn; [reflexivity|].
  now rewrite IH, andb_assoc.
Qed.

(** A rendered identifier is made of digits, after at most one minus
    sign. *)
Lemma FormatInt_forallb (f : ascii -> bool) (z : Z) :
  string_forallb f "-0123456789" = true ->
  string_forallb f (FormatInt z) = true.
Proof.
  intros H. cbn in H.
  repeat (apply andb_true_iff in H as [? H]).
  assert (Hu : forall d, string_forallb f (NilEmpty.string_of_uint d) = true).
  { induction d; cbn; rewrite ?IHd, ?andb_true_r; assumption || reflexivity. }
  assert (Hz : forall d, string_forallb f (NilZero.string_of_uint d) = true).
  { intros d. destruct d; try apply Hu. cbn. now rewrite andb_true_r. }
  unfold FormatInt. destruct (Z.to_int z) as [d | d]; cbn.
  - apply Hz.
  - apply andb_true_iff. split; [assumption | apply Hz].
Qed.

(** Two texts without a slash that are followed by a slash: equal wholes
    have equal parts. *)
Lemma append_slash_split (a b r1 r2 : string) :
  string_forallb not_slash a = true ->
  string_forallb not_slash b = true ->
  a ++ String "/" r1 = b ++ String "/" r2 -> a = b /\ r1 = r2.
Proof.
  revert b. induction a as [| c a IH]; intros [| c' b]; cbn;
    intros Ha Hb H.
  - injection H as ->. now split.
  - injection H as <- _. discriminate Hb.
  - injection H as -> _. discriminate Ha.
  - injection H as -> H.
    apply andb_true_iff in Ha as [_ Ha]. apply andb_true_iff in Hb as [_ Hb].
    destruct (IH b Ha Hb H) as [-> ->]. now split.
Qed.

(** ** The operations against an arbitrary client *)

Section ServiceProperties.

Variables Time ListOptions RequestOptionFunc Request Response error : Type.
Variable ClientState : Type.
Variable NewRequest :
  ClientState -> string -> string -> RequestOpt ListOptions ->
  list RequestOptionFunc -> (option Request * option error) * ClientState.
Variable Do :
  forall k : TargetKind, ClientState -> option Request -> target_val Time k ->
  (target_val Time k * (option Response * option error)) * ClientState.

Lemma store_set_same (h : Store ClientState) c st : store_set h c st c = st.
Proof. unfold store_set. now rewrite Nat.eqb_refl. Qed.

Lemma store_set_other (h : Store ClientState) c c' st :
  c' <> c -> store_set h c st c' = h c'.
Proof.
  intros Hne. unfold store_set.
  destruct (Nat.eqb_spec c' c); [contradiction | reflexivity].
Qed.

(** Splits on what [NewRequest] answers and, when the program goes on, on
    what [Do] answers. *)
Ltac client_cases :=
  cbn;
  match goal with
  | |- context [NewRequest ?st ?m ?p ?o ?os] =>
      destruct (NewRequest st m p o os) as [[?req [?e1|]] ?st1]; cbn;
      [ | rewrite ?store_set_same;
          match goal with
          | |- context [Do ?k ?st' ?r ?v] =>
              destruct (Do k st' r v) as [[?v' [?resp [?e2|]]] ?st2]; cbn
          end ]
  end.

(** C1.  When the request was constructed, [ScheduleAllSnippetStorageMoves]
    returns exactly the response and error of its one [Do] call, whatever
    that call decoded into the local record pointer. *)
Theorem ScheduleAll_returns_only_Do_pair
    (s : SnippetRepositoryStorageMoveService)
    (opts : ScheduleSnippetStorageMoveOptions)
    (options : list RequestOptionFunc) (h : Store ClientState)
    (req : option Request) (st st' : ClientState)
    (decoded : option (SnippetRepositoryStorageMove Time))
    (resp : option Response) (err : option error) :
  NewRequest (h (client s)) MethodPost "snippet_repository_storage_moves"
    (OptSchedule opts) options = ((req, None), st) ->
  Do RecordPtrTarget st req None = ((decoded, (resp, err)), st') ->
  fst (fst (run NewRequest Do
              (ScheduleAllSnippetStorageMoves s opts options) h))
  = (resp, err).
Proof.
  intros HN HD. cbn. rewrite HN. cbn.
  rewrite store_set_same, HD. cbn. now destruct err.
Qed.

(** C2.  Every operation asks the request constructor for exactly one
    request, and its method and path are those of the documented endpoint,
    for all identifiers. *)
Theorem paths_match_documented_endpoints
    (s : SnippetRepositoryStorageMoveService)
    (o : OpCall ListOptions RequestOptionFunc) (h : Store ClientState) :
  endpoints (snd (run NewRequest Do (invoke s o) h))
  = [documented_endpoint o].
Proof. destruct o; client_cases; reflexivity. Qed.

(** C4.  When a call on the client answers with an error, the operation
    returns that very error, the failing call is the last one made, and the
    request constructor and the executor are each called at most once. *)
Theorem errors_surface_unchanged
    (s : SnippetRepositoryStorageMoveService)
    (o : OpCall ListOptions RequestOptionFunc) (h : Store ClientState)
    (l : Logged Time ListOptions RequestOptionFunc Request Response error)
    (e : error) :
  In l (snd (run NewRequest Do (invoke s o) h)) ->
  logged_err l = Some e ->
  result_err (fst (fst (run NewRequest Do (invoke s o) h))) = Some e
  /\ last (snd (run NewRequest Do (invoke s o) h)) l = l
  /\ List.length
       (filter is_NewRequest (snd (run NewRequest Do (invoke s o) h)))
     = 1%nat
  /\ (List.length
        (filter is_Do (snd (run NewRequest Do (invoke s o) h))) <= 1)%nat.
Proof.
  destruct o; client_cases.
  all: intros Hin Herr; repeat (destruct Hin as [<- | Hin]; cbn in * );
    try contradiction; try discriminate; auto.
Qed.

(** C5.  An operation with a record or list result returns nil for it
    whenever a call on the client failed, and whenever it returns an error
    at all, whatever the executor left in the decode target. *)
Theorem no_partial_record_on_error
    (s : SnippetRepositoryStorageMoveService)
    (o : OpCall ListOptions RequestOptionFunc) (h : Store ClientState) :
  returns_value o = true ->
  (exists l e, In l (snd (run NewRequest Do (invoke s o) h))
               /\ logged_err l = Some e)
  \/ result_err (fst (fst (run NewRequest Do (invoke s o) h))) <> None ->
  result_value_is_nil (fst (fst (run NewRequest Do (invoke s o) h))) = true.
Proof.
  destruct o; intros Hv; try discriminate; client_cases.
  all: intros [(l & e & Hin & Herr) | Hne];
    [ try reflexivity;
      repeat (destruct Hin as [<- | Hin]; cbn in * );
      try contradiction; discriminate
    | try reflexivity; now contradiction Hne ].
Qed.

(** C6.  The identifier-taking operations accept every integer: the request
    constructor is asked for the path holding the decimal rendering of the
    identifier, the request it yields goes to the executor, and the
    rendering reads back as the identifier itself. *)
Theorem identifiers_pass_through_unvalidated
    (s : SnippetRepositoryStorageMoveService) (h : Store ClientState)
    (snippet id : Z) (opts : RetrieveAllSnippetStorageMovesOptions ListOptions)
    (sopts : ScheduleSnippetStorageMoveOptions)
    (options : list RequestOptionFunc) :
  reaches_client
    (snd (run NewRequest Do
            (RetrieveAllStorageMovesForSnippet s snippet opts options) h))
    "GET" ("snippets/" ++ FormatInt snippet ++ "/repository_storage_moves")
  /\ reaches_client
       (snd (run NewRequest Do (GetSnippetStorageMove s id options) h))
       "GET" ("snippet_repository_storage_moves/" ++ FormatInt id)
  /\ reaches_client
       (snd (run NewRequest Do
               (GetStorageMoveForSnippet s snippet id options) h))
       "GET" ("snippets/" ++ FormatInt snippet
              ++ "/repository_storage_moves/" ++ FormatInt id)
  /\ reaches_client
       (snd (run NewRequest Do
               (ScheduleStorageMoveForSnippet s snippet sopts options) h))
       "POST" ("snippets/" ++ FormatInt snippet ++ "/repository_storage_moves")
  /\ ParseInt (FormatInt snippet) = Some snippet
  /\ ParseInt (FormatInt id) = Some id.
Proof.
  repeat split; try apply ParseInt_FormatInt.
  all: client_cases; repeat split; rewrite ?append_empty_r; eauto 10.
Qed.

Lemma run_invoke_frame
    (s : SnippetRepositoryStorageMoveService)
    (o : OpCall ListOptions RequestOptionFunc) (h : Store ClientState) :
  let '(_, h', log) := run NewRequest Do (invoke s o) h in
  Forall (fun l => logged_client l = client s) log
  /\ forall a, a <> client s -> h' a = h a.
Proof.
  destruct o; client_cases.
  all: split; [ repeat constructor | ].
  all: intros a Ha; now rewrite ?store_set_other by assumption.
Qed.

(** C8.  After any sequence of operations the caller's service value is the
    one it started with; every call went to the client that value refers
    to, and no other client in the store was touched. *)
Theorem service_value_unchanged
    (c : Caller ClientState)
    (ops : list (OpCall ListOptions RequestOptionFunc)) :
  svc (fst (fst (exec NewRequest Do c ops))) = svc c
  /\ Forall (fun l => logged_client l = client (svc c))
       (snd (exec NewRequest Do c ops))
  /\ forall a, a <> client (svc c) ->
               store (fst (fst (exec NewRequest Do c ops))) a = store c a.
Proof.
  revert c. induction ops as [| o ops IH]; intros c; cbn.
  - repeat split; constructor.
  - unfold step.
    pose proof (run_invoke_frame (svc c) o (store c)) as Hf.
    destruct (run NewRequest Do (invoke (svc c) o) (store c))
      as [[r h1] l1].
    destruct Hf as [Hl1 Hh1].
    specialize (IH {| svc := svc c; store := h1 |}).
    destruct (exec NewRequest Do {| svc := svc c; store := h1 |} ops)
      as [[c2 rs] l2].
    cbn in IH. destruct IH as (Hs & Hl2 & Hh2). cbn.
    repeat split.
    + exact Hs.
    + apply Forall_app. split; assumption.
    + intros a Ha. rewrite Hh2 by assumption. now apply Hh1.
Qed.


(** C9.  The two singleton GET operations hand nil to the request
    constructor as the option record; the two list operations hand over the
    caller's pagination options. *)
Theorem singleton_gets_pass_nil_options
    (s : SnippetRepositoryStorageMoveService) (h : Store ClientState)
    (snippet id : Z) (opts : RetrieveAllSnippetStorageMovesOptions ListOptions)
    (options : list RequestOptionFunc) :
  opts_passed (snd (run NewRequest Do (GetSnippetStorageMove s id options) h))
  = [OptNil]
  /\ opts_passed
       (snd (run NewRequest Do
               (GetStorageMoveForSnippet s snippet id options) h))
     = [OptNil]
  /\ opts_passed
       (snd (run NewRequest Do
               (RetrieveAllSnippetStorageMoves s opts options) h))
     = [OptList opts]
  /\ opts_passed
       (snd (run NewRequest Do
               (RetrieveAllStorageMovesForSnippet s snippet opts options) h))
     = [OptList opts].
Proof. repeat split; client_cases; reflexivity. Qed.

(** C10.  A single-record operation that returns no error returns a record
    pointer that is not nil. *)
Theorem record_non_nil_on_success
    (s : SnippetRepositoryStorageMoveService)
    (o : OpCall ListOptions RequestOptionFunc) (h : Store ClientState) :
  returns_record o = true ->
  result_err (fst (fst (run NewRequest Do (invoke s o) h))) = None ->
  result_value_is_nil (fst (fst (run NewRequest Do (invoke s o) h))) = false.
Proof.
  destruct o; intros Hr; try discriminate; client_cases.
  all: intros Herr; try discriminate; reflexivity.
Qed.

(** ** Further properties of the call protocol *)

Lemma executed_app
    (a b : list (Logged Time ListOptions RequestOptionFunc Request Response
                   error)) :
  executed (a ++ b)%list = (executed a ++ executed b)%list.
Proof.
  induction a as [| [] a IH]; cbn; [reflexivity | exact IH | now rewrite IH].
Qed.

Lemma constructed_app
    (a b : list (Logged Time ListOptions RequestOptionFunc Request Response
                   error)) :
  constructed (a ++ b)%list = (constructed a ++ constructed b)%list.
Proof.
  induction a as [| [? ? ? ? ? [? [?|]] | ] a IH]; cbn;
    [reflexivity | exact IH | now rewrite IH | exact IH].
Qed.

Lemma run_invoke_fresh
    (s : SnippetRepositoryStorageMoveService)
    (o : OpCall ListOptions RequestOptionFunc) (h : Store ClientState) :
  Forall fresh_target (snd (run NewRequest Do (invoke s o) h)).
Proof. destruct o; client_cases; repeat constructor. Qed.

Lemma run_invoke_handover
    (s : SnippetRepositoryStorageMoveService)
    (o : OpCall ListOptions RequestOptionFunc) (h : Store ClientState) :
  executed (snd (run NewRequest Do (invoke s o) h))
  = constructed (snd (run NewRequest Do (invoke s o) h)).
Proof. destruct o; client_cases; reflexivity. Qed.


(** X2.  Over any sequence of operations, the requests handed to the
    executor are exactly the requests the constructor returned without an
    error, in the same order: none is dropped, repeated or replaced, and a
    failed construction executes nothing. *)
Theorem executed_requests_are_the_constructed_ones
    (c : Caller ClientState)
    (ops : list (OpCall ListOptions RequestOptionFunc)) :
  executed (snd (exec NewRequest Do c ops))
  = constructed (snd (exec NewRequest Do c ops)).
Proof.
  revert c. induction ops as [| o ops IH]; intros c; cbn; [reflexivity|].
  unfold step.
  pose proof (run_invoke_handover (svc c) o (store c)) as Hf.
  destruct (run NewRequest Do (invoke (svc c) o) (store c)) as [[r h1] l1].
  specialize (IH {| svc := svc c; store := h1 |}).
  destruct (exec NewRequest Do {| svc := svc c; store := h1 |} ops)
    as [[c2 rs] l2].
  cbn in *. now rewrite executed_app, constructed_app, Hf, IH.
Qed.

(** X3.  The response an operation returns is the one its executor call
    returned, also when that call failed; when the request could not be
    constructed the executor is not called and the response is nil. *)
Theorem response_comes_from_executor
    (s : SnippetRepositoryStorageMoveService)
    (o : OpCall ListOptions RequestOptionFunc) (h : Store ClientState) :
  result_resp (fst (fst (run NewRequest Do (invoke s o) h)))
  = last (responses (snd (run NewRequest Do (invoke s o) h))) None
  /\ (constructed (snd (run NewRequest Do (invoke s o) h)) = [] ->
      responses (snd (run NewRequest Do (invoke s o) h)) = []
      /\ result_resp (fst (fst (run NewRequest Do (invoke s o) h))) = None).
Proof.
  destruct o; client_cases; split; try reflexivity; intros H;
    try discriminate H; split; reflexivity.
Qed.

(** X4.  An operation that returns no error made exactly two calls, the
    second one a successful executor call, and hands its caller what that
    call left in the decode target, unchanged. *)
Theorem success_returns_decoded_value
    (s : SnippetRepositoryStorageMoveService)
    (o : OpCall ListOptions RequestOptionFunc) (h : Store ClientState) :
  result_err (fst (fst (run NewRequest Do (invoke s o) h))) = None ->
  exists l0 l,
    snd (run NewRequest Do (invoke s o) h) = [l0; l]
    /\ is_NewRequest l0 = true /\ is_Do l = true /\ logged_err l = None
    /\ result_payload (fst (fst (run NewRequest Do (invoke s o) h)))
       = logged_payload l.
Proof.
  destruct o; client_cases; intros H; try discriminate H.
  all: do 2 eexists; repeat split.
Qed.


(** X6.  Every operation hands the caller's list of hooks to the request
    constructor as it is, and the two scheduling operations hand over the
    caller's option record. *)
Theorem hooks_and_schedule_options_pass_through
    (s : SnippetRepositoryStorageMoveService)
    (o : OpCall ListOptions RequestOptionFunc) (h : Store ClientState)
    (snippet : Z) (sopts : ScheduleSnippetStorageMoveOptions)
    (options : list RequestOptionFunc) :
  hooks_passed (snd (run NewRequest Do (invoke s o) h)) = [call_hooks o]
  /\ opts_passed
       (snd (run NewRequest Do
               (ScheduleStorageMoveForSnippet s snippet sopts options) h))
     = [OptSchedule sopts]
  /\ opts_passed
       (snd (run NewRequest Do
               (ScheduleAllSnippetStorageMoves s sopts options) h))
     = [OptSchedule sopts].
Proof.
  repeat split; [ destruct o | | ]; client_cases; reflexivity.
Qed.

Lemma endpoints_run_invoke
    (s : SnippetRepositoryStorageMoveService)
    (o : OpCall ListOptions RequestOptionFunc) (h : Store ClientState) :
  exists line,
    @first_request Time ListOptions RequestOptionFunc Request Response error
      _ (invoke s o) = Some line
    /\ endpoints (snd (run NewRequest Do (invoke s o) h)) = [line].
Proof.
  destruct o; eexists; (split; [reflexivity|]); client_cases; reflexivity.
Qed.

(** X7.  Whatever the identifiers, a requested path consists of lower-case
    letters, digits, underscores, slashes and minus signs only: it holds no
    percent sign, question mark, hash or blank. *)
Theorem paths_need_no_escaping
    (s : SnippetRepositoryStorageMoveService)
    (o : OpCall ListOptions RequestOptionFunc) (h : Store ClientState) :
  forallb (fun line => string_forallb path_char_ok (snd line))
    (endpoints (snd (run NewRequest Do (invoke s o) h))) = true.
Proof.
  destruct (endpoints_run_invoke s o h) as (line & Hfirst & ->).
  cbn [forallb]. rewrite andb_true_r.
  assert (Hid : forall z, string_forallb path_char_ok (FormatInt z) = true)
    by (intros z; now apply FormatInt_forallb).
  destruct o; cbn in Hfirst; injection Hfirst as <-;
    cbn [snd];
    repeat (cbn [string_forallb]; rewrite ?string_forallb_app, ?Hid);
    reflexivity.
Qed.

End ServiceProperties.

(** ** Decoding against the members of an object *)

Lemma has_key_false_jget (key : string) (ms : list (string * JSON)) :
  has_key key ms = false -> jget key ms = None.
Proof.
  induction ms as [| [k v] ms IH]; cbn; [reflexivity|].
  destruct (String.eqb k key); cbn; [discriminate | exact IH].
Qed.

Lemma jget_In (key : string) (ms : list (string * JSON)) (j : JSON) :
  jget key ms = Some j -> In (key, j) ms.
Proof.
  induction ms as [| [k v] ms IH]; cbn; [discriminate|].
  destruct (String.eqb_spec k key) as [-> | Hne].
  - intros [= ->]. now left.
  - intros H. right. now apply IH.
Qed.

Section DecodeMembers.

Variable R : Type.
Variable set : string -> JSON -> R -> R * option ClientError.

(** An attribute that only the member named [key] writes ends up holding
    what that member decodes to, or its old value when the object has no
    such member. *)
Lemma decode_members_get (V : Type) (get : R -> V) (key : string)
    (dec : JSON -> V -> V) :
  (forall k j r, k <> key -> get (fst (set k j r)) = get r) ->
  (forall j r, get (fst (set key j r)) = dec j (get r)) ->
  forall ms r, nodup_keys ms = true ->
  get (fst (decode_members set ms r))
  = match jget key ms with
    | Some j => dec j (get r)
    | None => get r
    end.
Proof.
  intros Hother Hkey.
  induction ms as [| [k v] ms IH]; intros r Hnd; cbn; [reflexivity|].
  cbn in Hnd. apply andb_true_iff in Hnd as [Hk Hnd].
  apply negb_true_iff in Hk.
  specialize (IH (fst (set k v r)) Hnd).
  destruct (set k v r) as [r1 e1] eqn:Hset. cbn in IH.
  destruct (decode_members set ms r1) as [r2 e2]. cbn in *.
  rewrite IH.
  destruct (String.eqb_spec k key) as [-> | Hne].
  - rewrite (has_key_false_jget _ _ Hk).
    specialize (Hkey v r). now rewrite Hset in Hkey.
  - specialize (Hother k v r Hne). rewrite Hset in Hother. cbn in Hother.
    now rewrite Hother.
Qed.

Lemma decode_members_no_error (ms : list (string * JSON)) :
  (forall k v, In (k, v) ms -> forall r, snd (set k v r) = None) ->
  forall r, snd (decode_members set ms r) = None.
Proof.
  induction ms as [| [k v] ms IH]; intros Hok r; cbn; [reflexivity|].
  pose proof (Hok k v (or_introl eq_refl) r) as H1.
  destruct (set k v r) as [r1 e1]. cbn in H1. subst e1.
  specialize (IH (fun k' v' Hin => Hok k' v' (or_intror Hin)) r1).
  destruct (decode_members set ms r1) as [r2 e2]. cbn in *. exact IH.
Qed.

End DecodeMembers.

Section DecodeProperties.

Variable Time : Type.
Variable time_UnmarshalJSON : string -> option Time.

(** Case analysis on a member name, one attribute name after the other. *)
Ltac split_keys :=
  repeat (cbn;
          match goal with
          | |- context [String.eqb ?a ?b] =>
              is_var a; destruct (String.eqb_spec a b); subst
          end).

Ltac split_decoders :=
  repeat match goal with
         | |- context [decode_int ?j ?o] => destruct (decode_int j o)
         | |- context [decode_string ?j ?o] => destruct (decode_string j o)
         | |- context [decode_time ?f ?j ?o] => destruct (decode_time f j o)
         | |- context [decode_BasicSnippet ?f ?j ?o] =>
             destruct (decode_BasicSnippet f j o)
         end.

Ltac other_member :=
  let k := fresh "k" in
  let j := fresh "j" in
  let r := fresh "r" in
  let Hne := fresh "Hne" in
  intros k j r Hne;
  unfold set_BasicSnippet_field, set_SnippetRepositoryStorageMove_field;
  split_keys; try congruence; split_decoders; reflexivity.

Ltac own_member :=
  let j := fresh "j" in
  let r := fresh "r" in
  intros j r; cbn; split_decoders; reflexivity.

Lemma scalar_int (j : JSON) (old : Z) :
  scalar_ok time_UnmarshalJSON KInt j = true ->
  decode_int j old = (json_int (Some j), None).
Proof.
  destruct j; cbn; try discriminate. now intros ->.
Qed.

Lemma scalar_string (j : JSON) (old : string) :
  scalar_ok time_UnmarshalJSON KString j = true ->
  decode_string j old = (json_string (Some j), None).
Proof. destruct j; cbn; try discriminate; reflexivity. Qed.

Lemma scalar_time (j : JSON) (old : option Time) :
  scalar_ok time_UnmarshalJSON KTime j = true ->
  decode_time time_UnmarshalJSON j old
  = (json_time time_UnmarshalJSON (Some j), None).
Proof.
  destruct j; cbn; try discriminate; try reflexivity.
  destruct (time_UnmarshalJSON s); [reflexivity | discriminate].
Qed.

Lemma BasicSnippet_ext (a b : BasicSnippet Time) :
  bs_ID a = bs_ID b -> bs_Title a = bs_Title b ->
  bs_Description a = bs_Description b -> bs_Visibility a = bs_Visibility b ->
  bs_UpdatedAt a = bs_UpdatedAt b -> bs_CreatedAt a = bs_CreatedAt b ->
  bs_ProjectID a = bs_ProjectID b -> bs_WebURL a = bs_WebURL b ->
  bs_RawURL a = bs_RawURL b -> bs_SshUrlToRepo a = bs_SshUrlToRepo b ->
  bs_HttpUrlToRepo a = bs_HttpUrlToRepo b -> a = b.
Proof. destruct a, b; cbn; intros; subst; reflexivity. Qed.

Lemma SnippetRepositoryStorageMove_ext
    (a b : SnippetRepositoryStorageMove Time) :
  ssm_ID a = ssm_ID b -> ssm_CreatedAt a = ssm_CreatedAt b ->
  ssm_State a = ssm_State b ->
  ssm_SourceStorageName a = ssm_SourceStorageName b ->
  ssm_DestinationStorageName a = ssm_DestinationStorageName b ->
  ssm_Snippet a = ssm_Snippet b -> a = b.
Proof. destruct a, b; cbn; intros; subst; reflexivity. Qed.

Lemma forallb_jget (ok : string * JSON -> bool) (ms : list (string * JSON))
    (key : string) (j : JSON) :
  forallb ok ms = true -> jget key ms = Some j -> ok (key, j) = true.
Proof.
  intros Hall Hget. apply jget_In in Hget.
  rewrite forallb_forall in Hall. now apply Hall.
Qed.

Ltac scalar_rewrite :=
  first [ rewrite scalar_int by assumption
        | rewrite scalar_string by assumption
        | rewrite scalar_time by assumption ].

(** One attribute of a struct: only its own member writes it, and a member
    of the attribute's type decodes to the value the object gives it. *)
Ltac attribute get key dec kind :=
  rewrite (decode_members_get _ _ _ get key (fun j old => fst (dec j old)));
  [ | other_member | own_member | assumption ];
  match goal with
  | Hall : forallb _ ?ms = true |- _ =>
      let E := fresh "E" in
      destruct (jget key ms) as [?j|] eqn:E; [ | reflexivity ];
      let Hk := fresh "Hk" in
      assert (Hk : scalar_ok time_UnmarshalJSON kind j = true)
        by exact (forallb_jget _ _ _ _ Hall E);
      now scalar_rewrite
  end.

Lemma set_BasicSnippet_field_no_error (k : string) (v : JSON)
    (b : BasicSnippet Time) :
  member_ok_BasicSnippet time_UnmarshalJSON (k, v) = true ->
  snd (set_BasicSnippet_field time_UnmarshalJSON k v b) = None.
Proof.
  unfold member_ok_BasicSnippet, set_BasicSnippet_field, BasicSnippet_members.
  cbn [fst snd kind_of].
  split_keys; intros H; try scalar_rewrite; reflexivity.
Qed.

(** A well-formed snippet object decodes, without error, to the record its
    members spell out. *)
Lemma decode_BasicSnippet_wf (j : JSON) :
  wf_BasicSnippet time_UnmarshalJSON j = true ->
  decode_BasicSnippet time_UnmarshalJSON j zero_BasicSnippet
  = (read_BasicSnippet time_UnmarshalJSON (Some j), None).
Proof.
  destruct j as [| | | | | | ms]; try discriminate.
  cbn [wf_BasicSnippet decode_BasicSnippet]. intros H.
  apply andb_true_iff in H as [Hnd Hall].
  rewrite (surjective_pairing (decode_members _ _ _)). f_equal.
  - apply BasicSnippet_ext; cbn [read_BasicSnippet bs_ID bs_Title
      bs_Description bs_Visibility bs_UpdatedAt bs_CreatedAt bs_ProjectID
      bs_WebURL bs_RawURL bs_SshUrlToRepo bs_HttpUrlToRepo].
    + attribute (@bs_ID Time) "id" (decode_int) KInt.
    + attribute (@bs_Title Time) "title" (decode_string) KString.
    + attribute (@bs_Description Time) "description" (decode_string) KString.
    + attribute (@bs_Visibility Time) "visibility" (decode_string) KString.
    + attribute (@bs_UpdatedAt Time)
        "updated_at" (decode_time time_UnmarshalJSON) KTime.
    + attribute (@bs_CreatedAt Time)
        "created_at" (decode_time time_UnmarshalJSON) KTime.
    + attribute (@bs_ProjectID Time) "project_id" (decode_int) KInt.
    + attribute (@bs_WebURL Time) "web_url" (decode_string) KString.
    + attribute (@bs_RawURL Time) "raw_url" (decode_string) KString.
    + attribute (@bs_SshUrlToRepo Time)
        "ssh_url_to_repo" (decode_string) KString.
    + attribute (@bs_HttpUrlToRepo Time)
        "http_url_to_repo" (decode_string) KString.
  - apply decode_members_no_error. intros k v Hin b.
    apply set_BasicSnippet_field_no_error.
    rewrite forallb_forall in Hall. now apply Hall.
Qed.

Lemma decode_BasicSnippet_no_error (j : JSON) (old : BasicSnippet Time) :
  wf_BasicSnippet time_UnmarshalJSON j = true ->
  snd (decode_BasicSnippet time_UnmarshalJSON j old) = None.
Proof.
  destruct j as [| | | | | | ms]; try discriminate.
  cbn [wf_BasicSnippet decode_BasicSnippet]. intros H.
  apply andb_true_iff in H as [Hnd Hall].
  apply decode_members_no_error. intros k v Hin b.
  apply set_BasicSnippet_field_no_error.
  rewrite forallb_forall in Hall. now apply Hall.
Qed.

Lemma set_SnippetRepositoryStorageMove_field_no_error (k : string)
    (v : JSON) (m : SnippetRepositoryStorageMove Time) :
  member_ok_SnippetRepositoryStorageMove time_UnmarshalJSON (k, v) = true ->
  snd (set_SnippetRepositoryStorageMove_field time_UnmarshalJSON k v m)
  = None.
Proof.
  unfold member_ok_SnippetRepositoryStorageMove,
    set_SnippetRepositoryStorageMove_field,
    SnippetRepositoryStorageMove_members.
  cbn [fst snd kind_of].
  split_keys; intros H; try scalar_rewrite; try reflexivity.
  pose proof (decode_BasicSnippet_no_error v (ssm_Snippet m) H) as Hs.
  now destruct (decode_BasicSnippet time_UnmarshalJSON v (ssm_Snippet m)).
Qed.

(** A well-formed storage-move object decodes, without error, to the record
    its members spell out. *)
Lemma decode_SnippetRepositoryStorageMove_wf (ms : list (string * JSON)) :
  wf_SnippetRepositoryStorageMove time_UnmarshalJSON (JObject ms) = true ->
  decode_members (set_SnippetRepositoryStorageMove_field time_UnmarshalJSON)
    ms zero_SnippetRepositoryStorageMove
  = (read_SnippetRepositoryStorageMove time_UnmarshalJSON (JObject ms), None).
Proof.
  cbn [wf_SnippetRepositoryStorageMove]. intros H.
  apply andb_true_iff in H as [Hnd Hall].
  rewrite (surjective_pairing (decode_members _ _ _)). f_equal.
  - apply SnippetRepositoryStorageMove_ext;
      cbn [read_SnippetRepositoryStorageMove ssm_ID ssm_CreatedAt ssm_State
        ssm_SourceStorageName ssm_DestinationStorageName ssm_Snippet].
    + attribute (@ssm_ID Time) "id" (decode_int) KInt.
    + attribute (@ssm_CreatedAt Time)
        "created_at" (decode_time time_UnmarshalJSON) KTime.
    + attribute (@ssm_State Time) "state" (decode_string) KString.
    + attribute (@ssm_SourceStorageName Time)
        "source_storage_name" (decode_string) KString.
    + attribute (@ssm_DestinationStorageName Time)
        "destination_storage_name" (decode_string) KString.
    + rewrite (decode_members_get _ _ _ ssm_Snippet "snippet"
                 (fun j old =>
                    fst (decode_BasicSnippet time_UnmarshalJSON j old)));
        [ | other_member | own_member | assumption ].
      destruct (jget "snippet" ms) as [j|] eqn:E; [ | reflexivity ].
      assert (Hk : wf_BasicSnippet time_UnmarshalJSON j = true)
        by exact (forallb_jget _ _ _ _ Hall E).
      cbn [zero_SnippetRepositoryStorageMove ssm_Snippet].
      now rewrite decode_BasicSnippet_wf.
  - apply decode_members_no_error. intros k v Hin m.
    apply set_SnippetRepositoryStorageMove_field_no_error.
    rewrite forallb_forall in Hall. now apply Hall.
Qed.

(** A JSON array of well-formed storage-move objects decodes, element by
    element, to the records the objects spell out. *)
Lemma decode_items_wf (items : list JSON) :
  forallb (wf_SnippetRepositoryStorageMove time_UnmarshalJSON) items = true ->
  decode_items time_UnmarshalJSON items
  = (map (fun j =>
            Some (read_SnippetRepositoryStorageMove time_UnmarshalJSON j))
       items, None).
Proof.
  induction items as [| j items IH]; cbn [forallb decode_items map];
    [ reflexivity | ].
  intros H. apply andb_true_iff in H as [Hj Hrest].
  rewrite (IH Hrest).
  destruct j as [| | | | | | ms]; try discriminate.
  cbn [decode_pointer].
  now rewrite (decode_SnippetRepositoryStorageMove_wf ms Hj).
Qed.

End DecodeProperties.

(** ** The operations against the client of the specification *)

Section ModelClientProperties.

Variable Time : Type.
Variable time_UnmarshalJSON : string -> option Time.
Variable ListOptions : Type.
Variable query_Values : ListOptions -> list (string * string).
Variable Marshal_ListOptions : ListOptions -> JSON.

(** C3.  The body serialised from the mutation options has the member
    [source_storage_name] exactly when the source name is not empty and the
    member [destination_storage_name] exactly when the destination name is
    not empty; with both empty it has no member; and this serialisation is
    the body of the POST request. *)
Theorem empty_options_are_omitted (o : ScheduleSnippetStorageMoveOptions) :
  has_key "source_storage_name" (Marshal_ScheduleSnippetStorageMoveOptions o)
  = negb (String.eqb (opt_SourceStorageName o) "")
  /\ has_key "destination_storage_name"
       (Marshal_ScheduleSnippetStorageMoveOptions o)
     = negb (String.eqb (opt_DestinationStorageName o) "")
  /\ Marshal_ScheduleSnippetStorageMoveOptions
       {| opt_SourceStorageName := ""; opt_DestinationStorageName := "" |}
     = []
  /\ forall (remote : list Reply) (path : string),
       fst (model_NewRequest query_Values Marshal_ListOptions remote
              MethodPost path (OptSchedule o) [])
       = (Some {| req_method := "POST"; req_path := path; req_query := [];
                  req_body :=
                    Some (JObject
                            (Marshal_ScheduleSnippetStorageMoveOptions o)) |},
          None).
Proof.
  repeat split; try (intros; reflexivity).
  all: destruct o as [src dst];
    unfold Marshal_ScheduleSnippetStorageMoveOptions, marshal_string; cbn;
    destruct (String.eqb src ""), (String.eqb dst ""); reflexivity.
Qed.

(** C7.  When the remote service answers a list operation with a success
    status and a JSON array of well-formed storage-move objects, the
    operation returns, without error, one record per array element, in
    order, each holding the values its object gives the attributes. *)
Theorem list_decoding_round_trip
    (items : list JSON) (s : SnippetRepositoryStorageMoveService)
    (snippet : Z) (opts : ListOptions) (status : Z)
    (remote : list Reply) (h : Store (list Reply)) :
  forallb (wf_SnippetRepositoryStorageMove time_UnmarshalJSON) items = true ->
  success_status status = true ->
  h (client s) = HTTPReply status (Some (JArray items)) :: remote ->
  let expected :=
    map (fun j =>
           Some (read_SnippetRepositoryStorageMove time_UnmarshalJSON j))
      items in
  fst (fst (run (model_NewRequest query_Values Marshal_ListOptions)
              (model_Do time_UnmarshalJSON)
              (RetrieveAllSnippetStorageMoves s opts []) h))
  = (Some expected, Some {| StatusCode := status |}, None)
  /\ fst (fst (run (model_NewRequest query_Values Marshal_ListOptions)
                 (model_Do time_UnmarshalJSON)
                 (RetrieveAllStorageMovesForSnippet s snippet opts []) h))
     = (Some expected, Some {| StatusCode := status |}, None)
  /\ List.length expected = List.length items.
Proof.
  intros Hwf Hst Hh expected.
  split; [ | split ].
  - cbn. rewrite store_set_same, Hh. cbn. rewrite Hst.
    cbn. now rewrite (decode_items_wf _ _ _ Hwf).
  - cbn. rewrite store_set_same, Hh. cbn. rewrite Hst.
    cbn. now rewrite (decode_items_wf _ _ _ Hwf).
  - apply length_map.
Qed.

End ModelClientProperties.

(** ** The decoded body of the schedule-all operation stays inside *)

Section Discard.

Variables Time ListOptions RequestOptionFunc Request Response error : Type.
Variable ClientState : Type.
Variable NewRequest :
  ClientState -> string -> string -> RequestOpt ListOptions ->
  list RequestOptionFunc -> (option Request * option error) * ClientState.
Variables Do1 Do2 :
  forall k : TargetKind, ClientState -> option Request -> target_val Time k ->
  (target_val Time k * (option Response * option error)) * ClientState.

(** Two executors that answer alike and differ only in what they decode
    give [ScheduleAllSnippetStorageMoves] the same results. *)
Lemma ScheduleAll_ignores_decoded
    (s : SnippetRepositoryStorageMoveService)
    (opts : ScheduleSnippetStorageMoveOptions)
    (options : list RequestOptionFunc) (h : Store ClientState) :
  (forall st req v,
      snd (fst (Do1 RecordPtrTarget st req v))
      = snd (fst (Do2 RecordPtrTarget st req v))) ->
  fst (fst (run NewRequest Do1
              (ScheduleAllSnippetStorageMoves s opts options) h))
  = fst (fst (run NewRequest Do2
                (ScheduleAllSnippetStorageMoves s opts options) h)).
Proof.
  intros Hsame. cbn.
  destruct (NewRequest (h (client s)) MethodPost
              "snippet_repository_storage_moves" (OptSchedule opts) options)
    as [[req [e|]] st]; cbn; [reflexivity|].
  rewrite store_set_same. specialize (Hsame st req None).
  destruct (Do1 RecordPtrTarget st req None) as [[v1 [r1 e1]] st1].
  destruct (Do2 RecordPtrTarget st req None) as [[v2 [r2 e2]] st2].
  cbn in *. injection Hsame as -> ->. now destruct e2.
Qed.

End Discard.

(** ** Endpoints across calls and clients *)

Lemma endpoints_app
    (Time ListOptions RequestOptionFunc Request Response error : Type)
    (a b : list (Logged Time ListOptions RequestOptionFunc Request Response
                   error)) :
  endpoints (a ++ b)%list = (endpoints a ++ endpoints b)%list.
Proof.
  induction a as [| [] a IH]; cbn; [reflexivity | now rewrite IH | exact IH].
Qed.

Section TwoClients.

Variables Time ListOptions RequestOptionFunc Request Response error : Type.
Variable ClientState : Type.
Variables NewRequest1 NewRequest2 :
  ClientState -> string -> string -> RequestOpt ListOptions ->
  list RequestOptionFunc -> (option Request * option error) * ClientState.
Variables Do1 Do2 :
  forall k : TargetKind, ClientState -> option Request -> target_val Time k ->
  (target_val Time k * (option Response * option error)) * ClientState.

(** X8.  Two calls that request the same method and path are calls of the
    same operation on the same identifiers: no two operations, and no two
    identifiers of one operation, share an endpoint. *)
Theorem distinct_calls_hit_distinct_endpoints
    (s1 s2 : SnippetRepositoryStorageMoveService)
    (o1 o2 : OpCall ListOptions RequestOptionFunc)
    (h1 h2 : Store ClientState) :
  endpoints (snd (run NewRequest1 Do1 (invoke s1 o1) h1))
  = endpoints (snd (run NewRequest2 Do2 (invoke s2 o2) h2)) ->
  same_target o1 o2 = true.
Proof.
  destruct (endpoints_run_invoke _ _ _ _ _ _ _ NewRequest1 Do1 s1 o1 h1)
    as (line1 & Hf1 & ->).
  destruct (endpoints_run_invoke _ _ _ _ _ _ _ NewRequest2 Do2 s2 o2 h2)
    as (line2 & Hf2 & ->).
  intros [= <-]. rewrite <- Hf2 in Hf1. clear Hf2.
  assert (Hns : forall z, string_forallb not_slash (FormatInt z) = true)
    by (intros z; now apply FormatInt_forallb).
  destruct o1, o2; cbn in Hf1; try discriminate Hf1.
  all: try reflexivity.
  all: injection Hf1 as H; cbn.
  all: rewrite ?append_empty_r in H.
  all: try (apply append_slash_split in H as [H1 H2];
            [ | apply Hns | apply Hns ]).
  all: try discriminate.
  all: try (injection H2 as H2; rewrite ?append_empty_r in H2).
  all: repeat match goal with
              | E : FormatInt _ = FormatInt _ |- _ =>
                  apply FormatInt_inj in E; subst
              end.
  all: rewrite ?Z.eqb_refl; reflexivity.
Qed.

Lemma endpoints_run_invoke_any
    (s1 s2 : SnippetRepositoryStorageMoveService)
    (o : OpCall ListOptions RequestOptionFunc) (h1 h2 : Store ClientState) :
  endpoints (snd (run NewRequest1 Do1 (invoke s1 o) h1))
  = endpoints (snd (run NewRequest2 Do2 (invoke s2 o) h2))
  /\ List.length (endpoints (snd (run NewRequest1 Do1 (invoke s1 o) h1)))
     = 1%nat.
Proof.
  destruct (endpoints_run_invoke _ _ _ _ _ _ _ NewRequest1 Do1 s1 o h1)
    as (line1 & Hf1 & ->).
  destruct (endpoints_run_invoke _ _ _ _ _ _ _ NewRequest2 Do2 s2 o h2)
    as (line2 & Hf2 & ->).
  split; [ | reflexivity ].
  destruct o; cbn in Hf1, Hf2; congruence.
Qed.

(** X9.  A sequence of calls requests one endpoint per call, in call order,
    and returns one result per call; which endpoints are requested depends
    on the calls alone, not on the client, its state or its answers, so a
    failed call changes nothing about the calls after it. *)
Theorem endpoints_depend_on_calls_only
    (c1 c2 : Caller ClientState)
    (ops : list (OpCall ListOptions RequestOptionFunc)) :
  endpoints (snd (exec NewRequest1 Do1 c1 ops))
  = endpoints (snd (exec NewRequest2 Do2 c2 ops))
  /\ List.length (endpoints (snd (exec NewRequest1 Do1 c1 ops)))
     = List.length ops
  /\ List.length (snd (fst (exec NewRequest1 Do1 c1 ops)))
     = List.length ops.
Proof.
  revert c1 c2. induction ops as [| o ops IH]; intros c1 c2; cbn.
  - repeat split.
  - unfold step.
    destruct (endpoints_run_invoke_any (svc c1) (svc c2) o
                (store c1) (store c2)) as [Hsame Hone].
    destruct (run NewRequest1 Do1 (invoke (svc c1) o) (store c1))
      as [[r1 h1] l1].
    destruct (run NewRequest2 Do2 (invoke (svc c2) o) (store c2))
      as [[r2 h2] l2].
    specialize (IH {| svc := svc c1; store := h1 |}
                  {| svc := svc c2; store := h2 |}).
    destruct (exec NewRequest1 Do1 {| svc := svc c1; store := h1 |} ops)
      as [[c1' rs1] l1'].
    destruct (exec NewRequest2 Do2 {| svc := svc c2; store := h2 |} ops)
      as [[c2' rs2] l2'].
    cbn in *. destruct IH as (IH1 & IH2 & IH3).
    repeat split.
    + now rewrite !endpoints_app, Hsame, IH1.
    + now rewrite endpoints_app, length_app, Hone, IH2.
    + now rewrite IH3.
Qed.

End TwoClients.

(** ** The sample deployment *)

Example path_for_snippet_42 :
  endpoints
    (snd (run sample_NewRequest sample_Do
            (RetrieveAllStorageMovesForSnippet sample_service 42
               {| Page := 1; PerPage := 20 |} [])
            (sample_store [])))
  = [("GET", "snippets/42/repository_storage_moves")].
Proof. reflexivity. Qed.

Example path_for_negative_snippet :
  endpoints
    (snd (run sample_NewRequest sample_Do
            (RetrieveAllStorageMovesForSnippet sample_service (-1)
               {| Page := 1; PerPage := 20 |} [])
            (sample_store [])))
  = [("GET", "snippets/-1/repository_storage_moves")].
Proof. reflexivity. Qed.

Example path_for_move_zero :
  endpoints
    (snd (run sample_NewRequest sample_Do
            (GetSnippetStorageMove sample_service 0 []) (sample_store [])))
  = [("GET", "snippet_repository_storage_moves/0")].
Proof. reflexivity. Qed.

Example body_of_sample_options :
  Marshal_ScheduleSnippetStorageMoveOptions sample_options
  = [("source_storage_name", JString "default")].
Proof. reflexivity. Qed.

(** The executor may leave a half-filled record behind an error. *)
Example broken_move_decodes_partially :
  let '(m, e) := Unmarshal sample_UnmarshalTime RecordTarget
                   sample_broken_move zero_SnippetRepositoryStorageMove in
  ssm_ID m = 5 /\ e = Some (ErrDecode "cannot decode into string").
Proof. split; reflexivity. Qed.

(** A [null] body is a success that writes nothing. *)
Example null_body_yields_zero_record :
  fst (fst (run sample_NewRequest sample_Do
              (GetSnippetStorageMove sample_service 7 [])
              (sample_store [HTTPReply 200 (Some JNull)])))
  = (Some zero_SnippetRepositoryStorageMove,
     Some {| StatusCode := 200 |}, None).
Proof. reflexivity. Qed.

Lemma ScheduleAll_returns_only_Do_pair_witness :
  fst (fst (run sample_NewRequest sample_Do
              (ScheduleAllSnippetStorageMoves sample_service
                 sample_options [])
              (sample_store [HTTPReply 202 (Some sample_move)])))
  = (Some {| StatusCode := 202 |}, None).
Proof.
  eapply ScheduleAll_returns_only_Do_pair; reflexivity.
Defined.

Lemma errors_surface_unchanged_witness :
  exists l,
    result_err
      (fst (fst (run sample_NewRequest sample_Do
                   (invoke sample_service (CallGetSnippetStorageMove 7 []))
                   (sample_store [HTTPReply 404 None]))))
    = Some (ErrStatus 404)
    /\ last
         (snd (run sample_NewRequest sample_Do
                 (invoke sample_service (CallGetSnippetStorageMove 7 []))
                 (sample_store [HTTPReply 404 None]))) l = l
    /\ List.length
         (filter is_NewRequest
            (snd (run sample_NewRequest sample_Do
                    (invoke sample_service (CallGetSnippetStorageMove 7 []))
                    (sample_store [HTTPReply 404 None]))))
       = 1%nat
    /\ (List.length
          (filter is_Do
             (snd (run sample_NewRequest sample_Do
                     (invoke sample_service (CallGetSnippetStorageMove 7 []))
                     (sample_store [HTTPReply 404 None]))))
        <= 1)%nat.
Proof.
  eexists. eapply errors_surface_unchanged.
  - cbn. right. left. reflexivity.
  - reflexivity.
Defined.

Lemma no_partial_record_on_error_witness :
  result_value_is_nil
    (fst (fst (run sample_NewRequest sample_Do
                 (invoke sample_service (CallGetSnippetStorageMove 5 []))
                 (sample_store [HTTPReply 200 (Some sample_broken_move)]))))
  = true.
Proof.
  apply no_partial_record_on_error.
  - reflexivity.
  - right. cbn. discriminate.
Defined.

Lemma list_decoding_round_trip_witness :
  fst (fst (run sample_NewRequest sample_Do
              (RetrieveAllSnippetStorageMoves sample_service
                 {| Page := 1; PerPage := 20 |} [])
              (sample_store
                 [HTTPReply 200 (Some (JArray [sample_move; JObject []]))])))
  = (Some [Some (read_SnippetRepositoryStorageMove sample_UnmarshalTime
                   sample_move);
           Some zero_SnippetRepositoryStorageMove],
     Some {| StatusCode := 200 |}, None).
Proof.
  refine (proj1 (list_decoding_round_trip string sample_UnmarshalTime
                   SampleListOptions sample_query_Values
                   sample_Marshal_ListOptions [sample_move; JObject []]
                   sample_service 0 _ 200 [] _ _ _ _));
    reflexivity.
Defined.

Lemma service_value_unchanged_witness :
  svc (fst (fst (exec sample_NewRequest sample_Do
                   {| svc := sample_service;
                      store := sample_store [HTTPReply 200 (Some sample_move)]
                   |}
                   [CallGetSnippetStorageMove 7 [];
                    CallScheduleAllSnippetStorageMoves sample_options []])))
  = sample_service
  /\ store (fst (fst (exec sample_NewRequest sample_Do
                        {| svc := sample_service;
                           store :=
                             sample_store [HTTPReply 200 (Some sample_move)]
                        |}
                        [CallGetSnippetStorageMove 7 [];
                         CallScheduleAllSnippetStorageMoves
                           sample_options []]))) 2%nat
     = [HTTPReply 200 (Some sample_move)].
Proof.
  destruct (service_value_unchanged _ _ _ _ _ _ _ sample_NewRequest sample_Do
              {| svc := sample_service;
                 store := sample_store [HTTPReply 200 (Some sample_move)] |}
              [CallGetSnippetStorageMove 7 [];
               CallScheduleAllSnippetStorageMoves sample_options []])
    as (Hsvc & _ & Hstore).
  split; [ exact Hsvc | ].
  apply Hstore. cbn. discriminate.
Defined.

Lemma record_non_nil_on_success_witness :
  result_value_is_nil
    (fst (fst (run sample_NewRequest sample_Do
                 (invoke sample_service (CallGetSnippetStorageMove 7 []))
                 (sample_store [HTTPReply 200 (Some JNull)]))))
  = false.
Proof.
  apply record_non_nil_on_success; reflexivity.
Defined.

(** A hook that refuses every request. *)
Example refused_request_runs_nothing :
  snd (run sample_NewRequest sample_Do
         (GetSnippetStorageMove sample_service 7
            [fun _ => inr (ErrRequest "refused")])
         (sample_store [HTTPReply 200 (Some sample_move)]))
  = [LogNewRequest 1%nat "GET" "snippet_repository_storage_moves/7" OptNil
       [fun _ => inr (ErrRequest "refused")]
       (None, Some (ErrRequest "refused"))].
Proof. reflexivity. Qed.

Lemma response_comes_from_executor_witness :
  responses
    (snd (run sample_NewRequest sample_Do
            (invoke sample_service
               (CallGetSnippetStorageMove 7
                  [fun _ => inr (ErrRequest "refused")]))
            (sample_store [HTTPReply 200 (Some sample_move)])))
  = []
  /\ result_resp
       (fst (fst (run sample_NewRequest sample_Do
                    (invoke sample_service
                       (CallGetSnippetStorageMove 7
                          [fun _ => inr (ErrRequest "refused")]))
                    (sample_store [HTTPReply 200 (Some sample_move)]))))
     = None.
Proof.
  apply response_comes_from_executor. reflexivity.
Defined.

Lemma success_returns_decoded_value_witness :
  exists l0 l,
    snd (run sample_NewRequest sample_Do
           (invoke sample_service (CallGetSnippetStorageMove 7 []))
           (sample_store [HTTPReply 200 (Some sample_move)]))
    = [l0; l]
    /\ is_NewRequest l0 = true /\ is_Do l = true /\ logged_err l = None
    /\ result_payload
         (fst (fst (run sample_NewRequest sample_Do
                      (invoke sample_service (CallGetSnippetStorageMove 7 []))
                      (sample_store [HTTPReply 200 (Some sample_move)]))))
       = logged_payload l.
Proof.
  apply success_returns_decoded_value. reflexivity.
Defined.


Lemma distinct_calls_hit_distinct_endpoints_witness :
  same_target
    (@CallGetStorageMoveForSnippet SampleListOptions ModelOption 3 7 [])
    (@CallGetStorageMoveForSnippet SampleListOptions ModelOption 3 7
       [fun r => inl r])
  = true.
Proof.
  apply (distinct_calls_hit_distinct_endpoints _ _ _ _ _ _ _
           sample_NewRequest sample_NewRequest sample_Do sample_idle_Do
           sample_service sample_service _ _
           (sample_store []) (sample_store [])).
  reflexivity.
Defined.

